(** * param_tuning_utility: the tuning base class and the SVM model families

    A shallow embedding of [param_tuning.py] (class [ParamTuning]) and
    [svm_tuning.py] (classes [SVMRegressorTuning], [SVMClassifierTuning]).

    - Python values are an inductive type; a [dict] is a finite map from
      strings; dictionaries that the code shares and mutates in place (the
      parameter grids) live in a store and are handled through references.
    - A method is a computation in a state-and-exception monad over the
      instance ([self]), the store and the trace of calls into the external
      libraries (scikit-learn, bayes_opt, matplotlib).
    - The external libraries are an interface ([Backend]): the embedding fixes
      what the tuner hands to them and what it does with their answers. *)

From Stdlib Require Import ZArith QArith Qround Lia.
From stdpp Require Import base option gmap strings list fin_maps.

Local Open Scope Z_scope.
Local Open Scope string_scope.
Local Open Scope list_scope.
Local Open Scope stdpp_scope.

(** ** Python values *)

Module Py.

(** A Python float is modelled by the rational it denotes (every finite
    binary float is one); [nan] and the infinities are not modelled. *)
#[warnings="-register-all"]
Inductive value :=
| VNone
| VBool (b : bool)
| VInt (z : Z)
| VFloat (q : Q)
| VStr (s : string)
| VList (vs : list value)
| VTuple (vs : list value).

Inductive exn :=
| Exception (msg : string)
| AttributeError (attribute : string)
| KeyError (key : string)
| TypeError (msg : string)
| ValueError (msg : string)
| IndexError (msg : string)
| LibraryError (msg : string).   (* raised inside an external library *)

(** The outcome of an expression that may raise. *)
Definition result (A : Type) : Type := exn + A.

Definition ok {A} (a : A) : result A := inr a.
Definition raise {A} (e : exn) : result A := inl e.

Definition rbind {A B} (r : result A) (k : A -> result B) : result B :=
  match r with
  | inl e => inl e
  | inr a => k a
  end.

(** An attribute that [__init__] does not assign exists only once some
    method has assigned it; reading it before raises [AttributeError]. *)
Inductive attr (A : Type) :=
| Unset
| Assigned (a : A).
Arguments Unset {A}.
Arguments Assigned {A} a.

Definition getattr {A} (name : string) (a : attr A) : result A :=
  match a with
  | Unset => raise (AttributeError name)
  | Assigned v => ok v
  end.

(** [int(x)] on a float truncates toward zero. *)
Definition int_of_float (q : Q) : Z := Z.quot (Qnum q) (Zpos (Qden q)).

(** [int(v)].  Strings are not parsed: the values reaching [int] in this
    program are the floats of an optimiser's best point. *)
Definition int (v : value) : result Z :=
  match v with
  | VInt z => ok z
  | VBool b => ok (if b then 1 else 0)
  | VFloat q => ok (int_of_float q)
  | VStr _ => raise (ValueError "invalid literal for int()")
  | VNone | VList _ | VTuple _ =>
      raise (TypeError "int() argument must be a string or a number")
  end.

(** [d[k]] *)
Definition getitem (d : gmap string value) (k : string) : result value :=
  match d !! k with
  | Some v => ok v
  | None => raise (KeyError k)
  end.

(** [d.update(other)]: the entries of [other] win. *)
Definition update (d other : gmap string value) : gmap string value :=
  other ∪ d.

(** The expression returned rather than raised. *)
Definition returned {A} (r : result A) : bool :=
  match r with
  | inr _ => true
  | inl _ => false
  end.

(** The best-parameter mapping of a returned search outcome. *)
Definition best_of {A C} (r : result (gmap string value * A * C))
  : gmap string value :=
  match r with
  | inr (best, _, _) => best
  | inl _ => ∅
  end.

Definition is_integer (v : value) : bool :=
  match v with
  | VInt _ => true
  | _ => false
  end.

End Py.
Export Py.

Abbreviation dict := (gmap string value).

Notation "x <-? r ;; k" := (rbind r (fun x => k))
  (at level 100, r at next level, right associativity).

(** ** numpy arrays *)

Record ndarray := { shape : list nat; data : list Q }.

(** [X.shape[1]] *)
Definition shape_1 (a : ndarray) : result nat :=
  match shape a !! 1%nat with
  | Some n => ok n
  | None => raise (IndexError "tuple index out of range")
  end.

(** [scores.mean()], without the rounding of floating-point arithmetic. *)
Definition mean (scores : list Q) : Q :=
  (foldr Qplus 0%Q scores / inject_Z (Z.of_nat (length scores)))%Q.

(** ** Cross-validation splitters *)

(** [KFold(n_splits=.., shuffle=.., random_state=..)], or any other splitter
    object the caller built. *)
Inductive splitter :=
| KFold (n_splits : Z) (shuffle : bool) (random_state : option Z)
| OtherSplitter (name : string).

(** The [cv] argument: [isinstance(cv, numbers.Integral)] or not. *)
Inductive cv_arg :=
| CvIntegral (n : Z)
| CvSplitter (s : splitter).

(** ** The store of shared dictionaries *)

Abbreviation loc := positive.
Abbreviation store := (gmap loc dict).

(** A reference always denotes a dictionary: a location the finite map does
    not list holds the empty one. *)
Definition deref (h : store) (l : loc) : dict := h !!! l.

(** [d[k] = v] on the dictionary behind [l], in place. *)
Definition store_setitem (l : loc) (k : string) (v : value) (h : store) : store :=
  <[l := <[k := v]> (deref h l)]> h.

(** [copy.deepcopy(x)]: values of the embedding are immutable, so the copy
    of a value is that value. *)
Definition copy_deepcopy {A : Type} (a : A) : A := a.

(** [if arg == None: arg = self.DEFAULT] *)
Definition if_None {A : Type} (arg : option A) (class_default : A) : A :=
  match arg with
  | None => class_default
  | Some v => v
  end.

(** [if fit_params == {}: fit_params = self.FIT_PARAMS] *)
Definition if_empty (fit_params class_default : dict) : dict :=
  if decide (fit_params = ∅) then class_default else fit_params.

(** ** The external libraries *)

(** What a search back end leaves behind after [fit]. *)
Record search_result (estimator : Type) := {
  best_params_ : dict;
  best_score_ : Q;
  sr_best_estimator_ : estimator;
}.
Arguments best_params_ {estimator} _.
Arguments best_score_ {estimator} _.
Arguments sr_best_estimator_ {estimator} _.

(** [xgb_bo.max]: the best point (floats) and its target. *)
Record bayes_max := {
  max_params : gmap string Q;
  max_target : Q;
}.

Record Backend := {
  estimator : Type;
  axes : Type;
  (** [isinstance(model, Pipeline)] and the names of its steps *)
  pipeline_steps : estimator -> option (list string);
  (** the fitted attribute [feature_importances_], when the estimator has it *)
  feature_importances_ : estimator -> option ndarray;
  (** [model.set_params] with the entries of [params] as keywords *)
  set_params : estimator -> dict -> result estimator;
  (** [model.fit(X, y, **fit_params)] *)
  fit : estimator -> ndarray -> ndarray -> dict -> result estimator;
  (** [GridSearchCV(model, grid, cv=, scoring=, n_jobs=-1).fit(X, y, **fit_params)] *)
  GridSearchCV :
    estimator -> dict -> splitter -> option string ->
    ndarray -> ndarray -> dict -> result (search_result estimator);
  (** [RandomizedSearchCV(model, grid, cv=, random_state=, n_iter=, scoring=,
      n_jobs=-1).fit(X, y, **fit_params)] *)
  RandomizedSearchCV :
    estimator -> dict -> splitter -> Z -> Z -> option string ->
    ndarray -> ndarray -> dict -> result (search_result estimator);
  (** [BayesianOptimization(f, ranges, random_state=).maximize(init_points=,
      n_iter=, acq=)] followed by [.max] *)
  BayesianOptimization :
    (gmap string Q -> result Q) -> dict -> Z -> Z -> Z -> string -> result bayes_max;
  (** [cross_val_score(model, X, y, cv=, scoring=, fit_params=, n_jobs=-1)] *)
  cross_val_score :
    estimator -> ndarray -> ndarray -> option splitter -> option string ->
    option dict -> result (list Q);
  (** the n-th reading of [time.time()] *)
  clock : nat -> Q;
}.

Section ParamTuning.

Context (B : Backend).

Abbreviation Estimator := (estimator B).

(** Calls into the external libraries, in program order. *)
Inductive event :=
| EvGridSearchCV (model : Estimator) (param_grid : dict) (cv : splitter)
    (scoring : option string) (X y : ndarray) (fit_params : dict)
| EvRandomizedSearchCV (model : Estimator) (param_grid : dict) (cv : splitter)
    (random_state n_iter : Z) (scoring : option string) (X y : ndarray)
    (fit_params : dict)
| EvBayesianOptimization (pbounds : dict) (random_state init_points n_iter : Z)
    (acq : string)
| EvSetParams (model : Estimator) (params : dict)
| EvFit (model : Estimator) (X y : ndarray) (fit_params : dict)
| EvBarh (ax : option (axes B)) (features : list string) (importances : list Q)
| EvPrint (best_params : dict).

(** *** Instance state *)

Record Tuner := {
  X : ndarray;
  y : ndarray;
  X_colnames : list string;
  y_colname : option string;
  tuning_params : option loc;
  bayes_not_opt_params : option dict;
  seed : option Z;
  cv : option splitter;
  fit_params : option dict;
  best_estimator_ : option Estimator;
  (* assigned by the search methods only *)
  scoring : attr (option string);
  (* read by the objective callbacks of svm_tuning.py; nothing in
     param_tuning.py assigns them *)
  int_params : attr (list string);
  cv_model : attr Estimator;
}.

(** [ParamTuning.__init__] *)
Definition __init__ (X y : ndarray) (X_colnames : list string)
    (y_colname : option string) : result Tuner :=
  width <-? shape_1 X ;;
  if decide (width ≠ length X_colnames) then
    raise (Exception "width of X must be equal to length of X_colnames")
  else
    ok {| X := X; y := y; X_colnames := X_colnames; y_colname := y_colname;
          tuning_params := None; bayes_not_opt_params := None; seed := None;
          cv := None; fit_params := None; best_estimator_ := None;
          scoring := Unset; int_params := Unset; cv_model := Unset |}.

(** Attribute assignments [self.a = v]. *)
Definition set_tuning_params (v : option loc) (t : Tuner) : Tuner :=
  {| X := X t; y := y t; X_colnames := X_colnames t; y_colname := y_colname t;
     tuning_params := v; bayes_not_opt_params := bayes_not_opt_params t;
     seed := seed t; cv := cv t; fit_params := fit_params t;
     best_estimator_ := best_estimator_ t; scoring := scoring t;
     int_params := int_params t; cv_model := cv_model t |}.

Definition set_bayes_not_opt_params (v : option dict) (t : Tuner) : Tuner :=
  {| X := X t; y := y t; X_colnames := X_colnames t; y_colname := y_colname t;
     tuning_params := tuning_params t; bayes_not_opt_params := v;
     seed := seed t; cv := cv t; fit_params := fit_params t;
     best_estimator_ := best_estimator_ t; scoring := scoring t;
     int_params := int_params t; cv_model := cv_model t |}.

Definition set_seed (v : option Z) (t : Tuner) : Tuner :=
  {| X := X t; y := y t; X_colnames := X_colnames t; y_colname := y_colname t;
     tuning_params := tuning_params t;
     bayes_not_opt_params := bayes_not_opt_params t;
     seed := v; cv := cv t; fit_params := fit_params t;
     best_estimator_ := best_estimator_ t; scoring := scoring t;
     int_params := int_params t; cv_model := cv_model t |}.

Definition set_scoring (v : option string) (t : Tuner) : Tuner :=
  {| X := X t; y := y t; X_colnames := X_colnames t; y_colname := y_colname t;
     tuning_params := tuning_params t;
     bayes_not_opt_params := bayes_not_opt_params t;
     seed := seed t; cv := cv t; fit_params := fit_params t;
     best_estimator_ := best_estimator_ t; scoring := Assigned v;
     int_params := int_params t; cv_model := cv_model t |}.

Definition set_fit_params (v : option dict) (t : Tuner) : Tuner :=
  {| X := X t; y := y t; X_colnames := X_colnames t; y_colname := y_colname t;
     tuning_params := tuning_params t;
     bayes_not_opt_params := bayes_not_opt_params t;
     seed := seed t; cv := cv t; fit_params := v;
     best_estimator_ := best_estimator_ t; scoring := scoring t;
     int_params := int_params t; cv_model := cv_model t |}.

Definition set_cv (v : option splitter) (t : Tuner) : Tuner :=
  {| X := X t; y := y t; X_colnames := X_colnames t; y_colname := y_colname t;
     tuning_params := tuning_params t;
     bayes_not_opt_params := bayes_not_opt_params t;
     seed := seed t; cv := v; fit_params := fit_params t;
     best_estimator_ := best_estimator_ t; scoring := scoring t;
     int_params := int_params t; cv_model := cv_model t |}.

Definition set_best_estimator_ (v : option Estimator) (t : Tuner) : Tuner :=
  {| X := X t; y := y t; X_colnames := X_colnames t; y_colname := y_colname t;
     tuning_params := tuning_params t;
     bayes_not_opt_params := bayes_not_opt_params t;
     seed := seed t; cv := cv t; fit_params := fit_params t;
     best_estimator_ := v; scoring := scoring t;
     int_params := int_params t; cv_model := cv_model t |}.

(** *** The method monad: instance, store, trace, clock; exceptions *)

Record St := {
  st_self : Tuner;
  st_heap : store;
  st_trace : list event;
  st_clock : nat;
}.

Definition M (A : Type) : Type := St -> St * result A.

Definition ret {A} (a : A) : M A := fun s => (s, ok a).

Definition bind {A C} (m : M A) (k : A -> M C) : M C :=
  fun s =>
    match m s with
    | (s', inl e) => (s', inl e)
    | (s', inr a) => k a s'
    end.

Definition lift {A} (r : result A) : M A := fun s => (s, r).

Definition get_self : M Tuner := fun s => (s, ok (st_self s)).

Definition assign (f : Tuner -> Tuner) : M unit :=
  fun s =>
    ({| st_self := f (st_self s); st_heap := st_heap s;
        st_trace := st_trace s; st_clock := st_clock s |}, ok tt).

(** [ref[k] = v] *)
Definition setitem (l : loc) (k : string) (v : value) : M unit :=
  fun s =>
    ({| st_self := st_self s; st_heap := store_setitem l k v (st_heap s);
        st_trace := st_trace s; st_clock := st_clock s |}, ok tt).

Definition load (l : loc) : M dict := fun s => (s, ok (deref (st_heap s) l)).

(** A call into an external library: recorded, then answered. *)
Definition call {A} (e : event) (answer : result A) : M A :=
  fun s =>
    ({| st_self := st_self s; st_heap := st_heap s;
        st_trace := st_trace s ++ [e]; st_clock := st_clock s |}, answer).

(** [time.time()] *)
Definition time_time : M Q :=
  fun s =>
    ({| st_self := st_self s; st_heap := st_heap s;
        st_trace := st_trace s; st_clock := S (st_clock s) |},
     ok (clock B (st_clock s))).


Notation "x <- m ;; k" := (bind m (fun x => k))
  (at level 100, m at next level, right associativity).
Notation "m ;;; k" := (bind m (fun _ => k))
  (at level 100, right associativity).

(** *** Class-level configuration of a model family

    The class attributes a subclass of [ParamTuning] declares, and the two
    methods it overrides.  The grids and ranges are dictionaries created
    once, when the class body runs; every instance reaches the same object
    through [self.CV_PARAMS_GRID] and the like, hence references. *)
Record Family := {
  SEED : Z;
  SEEDS : list Z;
  CV_NUM : Z;
  CV_MODEL : Estimator;
  FIT_PARAMS : dict;
  SCORING : option string;
  NOT_OPT_PARAMS : dict;
  CV_PARAMS_GRID : loc;
  N_ITER_RANDOM : Z;
  CV_PARAMS_RANDOM : loc;
  N_ITER_BAYES : Z;
  INIT_POINTS : Z;
  ACQ : string;
  BAYES_PARAMS : loc;
  INT_PARAMS : list string;
  BAYES_NOT_OPT_PARAMS : dict;
  _train_param_generation : Tuner -> dict -> dict;
  (* called by the optimiser with the names of the ranges as keywords *)
  _bayes_evaluate : Tuner -> gmap string Q -> result Q;
}.

(** [ParamTuning._train_param_generation] *)
Definition ParamTuning_train_param_generation (self : Tuner)
    (src_fit_params : dict) : dict :=
  src_fit_params.

(** [KFold(n_splits=..., shuffle=..., random_state=...)]: the constructor of
    scikit-learn checks its arguments, and refuses fewer than two folds with
    a [ValueError]. *)
Definition new_KFold (n_splits : Z) (shuffle : bool) (random_state : option Z)
  : result splitter :=
  if decide (n_splits <= 1)
  then raise (ValueError
                "k-fold cross-validation requires at least one train/test split by setting n_splits=2 or more")
  else ok (KFold n_splits shuffle random_state).

(** [if isinstance(cv, numbers.Integral): cv = KFold(n_splits=cv,
    shuffle=True, random_state=seed)] *)
Definition make_cv (cv : cv_arg) (seed : Z) : result splitter :=
  match cv with
  | CvIntegral n => new_KFold n true (Some seed)
  | CvSplitter s => ok s
  end.

Section Methods.

Variable cls : Family.

(** [ParamTuning.grid_search_tuning] *)
Definition grid_search_tuning (cv_model : option Estimator)
    (cv_params : option loc) (cv : option cv_arg) (seed : option Z)
    (scoring : option string) (fit_params : dict) : M (dict * Q * Q) :=
  start <- time_time ;;
  let cv_model := if_None cv_model (copy_deepcopy (CV_MODEL cls)) in
  let cv_params := if_None cv_params (CV_PARAMS_GRID cls) in
  let cv := if_None cv (CvIntegral (CV_NUM cls)) in
  let seed := if_None seed (SEED cls) in
  let scoring := match scoring with None => SCORING cls | Some s => Some s end in
  let fit_params := if_empty fit_params (FIT_PARAMS cls) in
  setitem cv_params "random_state" (VList [VInt seed]) ;;;
  assign (set_tuning_params (Some cv_params)) ;;;
  assign (set_seed (Some seed)) ;;;
  assign (set_scoring scoring) ;;;
  self <- get_self ;;
  let fit_params := _train_param_generation cls self fit_params in
  assign (set_fit_params (Some fit_params)) ;;;
  cv <- lift (make_cv cv seed) ;;
  assign (set_cv (Some cv)) ;;;
  self <- get_self ;;
  grid <- load cv_params ;;
  gridcv <- call (EvGridSearchCV cv_model grid cv scoring (X self) (y self) fit_params)
                 (GridSearchCV B cv_model grid cv scoring (X self) (y self) fit_params) ;;
  now <- time_time ;;
  let elapsed_time := (now - start)%Q in
  call (EvPrint (best_params_ gridcv)) (ok tt) ;;;
  assign (set_best_estimator_ (Some (sr_best_estimator_ gridcv))) ;;;
  ret (best_params_ gridcv, best_score_ gridcv, elapsed_time).

(** [ParamTuning.random_search_tuning] *)
Definition random_search_tuning (cv_model : option Estimator)
    (cv_params : option loc) (cv : option cv_arg) (seed : option Z)
    (scoring : option string) (n_iter : option Z) (fit_params : dict)
  : M (dict * Q * Q) :=
  start <- time_time ;;
  let cv_model := if_None cv_model (copy_deepcopy (CV_MODEL cls)) in
  let cv_params := if_None cv_params (CV_PARAMS_RANDOM cls) in
  let cv := if_None cv (CvIntegral (CV_NUM cls)) in
  let seed := if_None seed (SEED cls) in
  let scoring := match scoring with None => SCORING cls | Some s => Some s end in
  let n_iter := if_None n_iter (N_ITER_RANDOM cls) in
  let fit_params := if_empty fit_params (FIT_PARAMS cls) in
  setitem cv_params "random_state" (VList [VInt seed]) ;;;
  assign (set_tuning_params (Some cv_params)) ;;;
  assign (set_seed (Some seed)) ;;;
  assign (set_scoring scoring) ;;;
  self <- get_self ;;
  let fit_params := _train_param_generation cls self fit_params in
  assign (set_fit_params (Some fit_params)) ;;;
  cv <- lift (make_cv cv seed) ;;
  assign (set_cv (Some cv)) ;;;
  self <- get_self ;;
  grid <- load cv_params ;;
  randcv <- call (EvRandomizedSearchCV cv_model grid cv seed n_iter scoring
                    (X self) (y self) fit_params)
                 (RandomizedSearchCV B cv_model grid cv seed n_iter scoring
                    (X self) (y self) fit_params) ;;
  now <- time_time ;;
  let elapsed_time := (now - start)%Q in
  call (EvPrint (best_params_ randcv)) (ok tt) ;;;
  assign (set_best_estimator_ (Some (sr_best_estimator_ randcv))) ;;;
  ret (best_params_ randcv, best_score_ randcv, elapsed_time).

(** [self.seed], read where a local variable of the same name is in scope *)
Definition self_seed (self : Tuner) : option Z := seed self.

(** [self.seed] as the value stored under a key *)
Definition seed_value (s : option Z) : value :=
  match s with
  | Some z => VInt z
  | None => VNone
  end.

(** [best_params[k] = int(best_params[k])] *)
Definition cast_to_int (k : string) (best_params : dict) : result dict :=
  v <-? getitem best_params k ;;
  z <-? int v ;;
  ok (<[k := VInt z]> best_params).

(** [ParamTuning.bayes_opt_tuning] *)
Definition bayes_opt_tuning (cv_model : option Estimator)
    (bayes_params : option loc) (cv : option cv_arg) (seed : option Z)
    (scoring : option string) (n_iter init_points : option Z)
    (acq : option string) (bayes_not_opt_params : option dict)
    (fit_params : dict) : M (dict * Q * Q) :=
  start <- time_time ;;
  let cv_model := if_None cv_model (copy_deepcopy (CV_MODEL cls)) in
  let bayes_params := if_None bayes_params (BAYES_PARAMS cls) in
  let cv := if_None cv (CvIntegral (CV_NUM cls)) in
  let seed := if_None seed (SEED cls) in
  let scoring := match scoring with None => SCORING cls | Some s => Some s end in
  let n_iter := if_None n_iter (N_ITER_BAYES cls) in
  let init_points := if_None init_points (INIT_POINTS cls) in
  let acq := if_None acq (ACQ cls) in
  let bayes_not_opt_params :=
    if_None bayes_not_opt_params (BAYES_NOT_OPT_PARAMS cls) in
  let fit_params := if_empty fit_params (FIT_PARAMS cls) in
  assign (set_tuning_params (Some bayes_params)) ;;;
  assign (set_bayes_not_opt_params (Some bayes_not_opt_params)) ;;;
  assign (set_seed (Some seed)) ;;;
  assign (set_scoring scoring) ;;;
  self <- get_self ;;
  let fit_params := _train_param_generation cls self fit_params in
  assign (set_fit_params (Some fit_params)) ;;;
  cv <- lift (make_cv cv seed) ;;
  assign (set_cv (Some cv)) ;;;
  self <- get_self ;;
  pbounds <- load bayes_params ;;
  xgb_bo_max <- call (EvBayesianOptimization pbounds seed init_points n_iter acq)
                     (BayesianOptimization B (_bayes_evaluate cls self) pbounds
                        seed init_points n_iter acq) ;;
  now <- time_time ;;
  let elapsed_time := (now - start)%Q in
  let best_params : dict := VFloat <$> max_params xgb_bo_max in
  best_params <- lift (cast_to_int "min_child_weight" best_params) ;;
  best_params <- lift (cast_to_int "max_depth" best_params) ;;
  let best_params := update best_params (BAYES_NOT_OPT_PARAMS cls) in
  self <- get_self ;;
  let best_params := <["random_state" := seed_value (self_seed self)]> best_params in
  let best_score := max_target xgb_bo_max in
  let best_model := copy_deepcopy cv_model in
  best_model <- call (EvSetParams best_model best_params)
                     (set_params B best_model best_params) ;;
  best_model <- call (EvFit best_model (X self) (y self) fit_params)
                     (fit B best_model (X self) (y self) fit_params) ;;
  assign (set_best_estimator_ (Some best_model)) ;;;
  ret (best_params, best_score, elapsed_time).

End Methods.

(** [ParamTuning.get_feature_importances] *)
Definition get_feature_importances (ax : option (axes B)) : M (option ndarray) :=
  self <- get_self ;;
  match best_estimator_ self with
  | Some est =>
      let features := rev (X_colnames self) in
      imp <- lift (match feature_importances_ B est with
                   | Some a => ok a
                   | None => raise (AttributeError "feature_importances_")
                   end) ;;
      let importances := rev (data imp) in
      (* [plt.barh] when [ax == None], else [ax.barh] *)
      call (EvBarh ax features importances) (ok tt) ;;;
      ret (Some imp)
  | None => ret None
  end.


(** *** Helpers of the objective callbacks *)

(** Modelled from the spec: the nearest integer of a float, as "rounding any
    parameter declared integer-valued to the nearest integer" asks; a tie
    goes to the even neighbour, as Python's [round] does. *)
Definition round_nearest (q : Q) : Z :=
  let f := Qfloor q in
  match (q - inject_Z f ?= 1 # 2)%Q with
  | Lt => f
  | Gt => f + 1
  | Eq => if Z.even f then f else f + 1
  end.

Definition round_value (v : value) : value :=
  match v with
  | VFloat q => VInt (round_nearest q)
  | _ => v
  end.

(** Modelled from the spec: [_int_conversion] is called by both objective
    callbacks (svm_tuning.py lines 86 and 188) and defined nowhere under
    src/.  Spec 4.1: the callback builds the parameter set by "(a) rounding
    any parameter declared integer-valued to the nearest integer". *)
Definition _int_conversion (src_params : dict) (int_params : list string) : dict :=
  map_imap
    (fun k v => Some (if bool_decide (k ∈ int_params) then round_value v else v))
    src_params.

(** The name a parameter of a pipeline step goes by: scikit-learn's
    [<step>__<parameter>]. *)
Definition step_param_name (step : string) : string -> string :=
  String.append (step +:+ "__").

(** Modelled from the spec: [_add_learner_name] is called by both objective
    callbacks (svm_tuning.py lines 89 and 191) and defined nowhere under
    src/.  Spec 4.1: "(c) if the wrapped estimator is a named preprocessing
    pipeline, prefixing each parameter name with its pipeline step's name";
    the step is the learner, the last one of the pipeline. *)
Definition _add_learner_name (model : Estimator) (params : dict) : dict :=
  match pipeline_steps B model with
  | Some steps =>
      match last steps with
      | Some learner_name => kmap (step_param_name learner_name) params
      | None => params
      end
  | None => params
  end.

(** [params.update(self.bayes_not_opt_params)] *)
Definition update_with (params : dict) (other : option dict) : result dict :=
  match other with
  | Some d => ok (update params d)
  | None => raise (TypeError "'NoneType' object is not iterable")
  end.

(** *** [SVMRegressorTuning] *)

Definition SVM_NOT_OPT_PARAMS : dict := {[ "kernel" := VList [VStr "rbf"] ]}.

(** [{k: v[0] for k, v in NOT_OPT_PARAMS.items()}] *)
Definition SVM_BAYES_NOT_OPT_PARAMS : dict := {[ "kernel" := VStr "rbf" ]}.

Definition SVMRegressorTuning_CV_PARAMS_GRID : dict :=
  update
    {[ "gamma" := VList [VFloat (1#100); VFloat (3#100); VFloat (1#10);
                         VFloat (3#10); VInt 1; VInt 3; VInt 10];
       "C" := VList [VFloat (1#10); VFloat (3#10); VInt 1; VInt 3; VInt 10];
       "epsilon" := VList [VInt 0; VFloat (1#10); VFloat (2#10); VFloat (3#10)] ]}
    SVM_NOT_OPT_PARAMS.

Definition SVMRegressorTuning_CV_PARAMS_RANDOM : dict :=
  update
    {[ "gamma" := VList [VFloat (1#100); VFloat (2#100); VFloat (5#100);
                         VFloat (1#10); VFloat (2#10); VFloat (5#10);
                         VInt 1; VInt 2; VInt 5; VInt 10];
       "C" := VList [VFloat (1#10); VFloat (2#10); VFloat (5#10);
                     VInt 1; VInt 2; VInt 5; VInt 10];
       "epsilon" := VList [VInt 0; VFloat (5#100); VFloat (1#10); VFloat (15#100);
                           VFloat (2#10); VFloat (25#100); VFloat (3#10)] ]}
    SVM_NOT_OPT_PARAMS.

Definition SVMRegressorTuning_BAYES_PARAMS : dict :=
  {[ "gamma" := VTuple [VFloat (1#100); VInt 10];
     "C" := VTuple [VFloat (1#10); VInt 10];
     "epsilon" := VTuple [VInt 0; VFloat (3#10)] ]}.

(** [SVMRegressorTuning._bayes_evaluate] *)
Definition SVMRegressorTuning_bayes_evaluate (self : Tuner) (gamma C epsilon : Q)
  : result Q :=
  let params : dict :=
    {[ "gamma" := VFloat gamma; "C" := VFloat C; "epsilon" := VFloat epsilon ]} in
  declared <-? getattr "int_params" (int_params self) ;;
  let params := _int_conversion params declared in
  params <-? update_with params (bayes_not_opt_params self) ;;
  model <-? getattr "cv_model" (cv_model self) ;;
  let params := _add_learner_name model params in
  model <-? getattr "cv_model" (cv_model self) ;;
  let cv_model := copy_deepcopy model in
  cv_model <-? set_params B cv_model params ;;
  metric <-? getattr "scoring" (scoring self) ;;
  scores <-? cross_val_score B cv_model (X self) (y self) (cv self) metric
               (fit_params self) ;;
  let val := mean scores in
  ok val.

(** The optimiser calls the objective with the names of the ranges as
    keywords; Python binds them to [gamma], [C], [epsilon] or raises. *)
Definition SVMRegressorTuning_objective (self : Tuner) (kw : gmap string Q)
  : result Q :=
  match kw !! "gamma", kw !! "C", kw !! "epsilon" with
  | Some gamma, Some C, Some epsilon =>
      if decide (size kw = 3%nat) then
        SVMRegressorTuning_bayes_evaluate self gamma C epsilon
      else raise (TypeError "_bayes_evaluate() got an unexpected keyword argument")
  | _, _, _ =>
      if decide (dom kw ⊆ ({[ "gamma"; "C"; "epsilon" ]} : gset string)) then
        raise (TypeError "_bayes_evaluate() missing required positional arguments")
      else raise (TypeError "_bayes_evaluate() got an unexpected keyword argument")
  end.

Definition SVMRegressorTuning (pipeline : Estimator) : Family :=
  {| SEED := 42;
     SEEDS := [42; 43; 44; 45; 46; 47; 48; 49; 50; 51];
     CV_NUM := 5;
     CV_MODEL := pipeline;
     FIT_PARAMS := ∅;
     SCORING := Some "neg_mean_squared_error";
     NOT_OPT_PARAMS := SVM_NOT_OPT_PARAMS;
     CV_PARAMS_GRID := 1%positive;
     N_ITER_RANDOM := 200;
     CV_PARAMS_RANDOM := 2%positive;
     N_ITER_BAYES := 100;
     INIT_POINTS := 20;
     ACQ := "ei";
     BAYES_PARAMS := 3%positive;
     INT_PARAMS := [];
     BAYES_NOT_OPT_PARAMS := SVM_BAYES_NOT_OPT_PARAMS;
     _train_param_generation := fun _ src_fit_params => src_fit_params;
     _bayes_evaluate := SVMRegressorTuning_objective |}.

(** *** [SVMClassifierTuning] *)

Definition SVMClassifierTuning_CV_PARAMS_GRID : dict :=
  update
    {[ "gamma" := VList [VFloat (1#100); VFloat (3#100); VFloat (1#10);
                         VFloat (3#10); VInt 1; VInt 3; VInt 10];
       "C" := VList [VFloat (1#10); VFloat (3#10); VInt 1; VInt 3; VInt 10] ]}
    SVM_NOT_OPT_PARAMS.

Definition SVMClassifierTuning_CV_PARAMS_RANDOM : dict :=
  update
    {[ "gamma" := VList [VFloat (1#100); VFloat (2#100); VFloat (5#100);
                         VFloat (1#10); VFloat (2#10); VFloat (5#10);
                         VInt 1; VInt 2; VInt 5; VInt 10];
       "C" := VList [VFloat (1#10); VFloat (2#10); VFloat (5#10);
                     VInt 1; VInt 2; VInt 5; VInt 10] ]}
    SVM_NOT_OPT_PARAMS.

Definition SVMClassifierTuning_BAYES_PARAMS : dict :=
  {[ "gamma" := VTuple [VFloat (1#100); VInt 10];
     "C" := VTuple [VFloat (1#10); VInt 10] ]}.

(** [SVMClassifierTuning._bayes_evaluate] *)
Definition SVMClassifierTuning_bayes_evaluate (self : Tuner) (gamma C : Q)
  : result Q :=
  let params : dict := {[ "gamma" := VFloat gamma; "C" := VFloat C ]} in
  declared <-? getattr "int_params" (int_params self) ;;
  let params := _int_conversion params declared in
  params <-? update_with params (bayes_not_opt_params self) ;;
  model <-? getattr "cv_model" (cv_model self) ;;
  let params := _add_learner_name model params in
  model <-? getattr "cv_model" (cv_model self) ;;
  let cv_model := copy_deepcopy model in
  cv_model <-? set_params B cv_model params ;;
  metric <-? getattr "scoring" (scoring self) ;;
  scores <-? cross_val_score B cv_model (X self) (y self) (cv self) metric
               (fit_params self) ;;
  let val := mean scores in
  ok val.

Definition SVMClassifierTuning_objective (self : Tuner) (kw : gmap string Q)
  : result Q :=
  match kw !! "gamma", kw !! "C" with
  | Some gamma, Some C =>
      if decide (size kw = 2%nat) then
        SVMClassifierTuning_bayes_evaluate self gamma C
      else raise (TypeError "_bayes_evaluate() got an unexpected keyword argument")
  | _, _ =>
      if decide (dom kw ⊆ ({[ "gamma"; "C" ]} : gset string)) then
        raise (TypeError "_bayes_evaluate() missing required positional arguments")
      else raise (TypeError "_bayes_evaluate() got an unexpected keyword argument")
  end.

Definition SVMClassifierTuning (pipeline : Estimator) : Family :=
  {| SEED := 42;
     SEEDS := [42; 43; 44; 45; 46; 47; 48; 49; 50; 51];
     CV_NUM := 5;
     CV_MODEL := pipeline;
     FIT_PARAMS := ∅;
     SCORING := Some "neg_log_loss";
     NOT_OPT_PARAMS := SVM_NOT_OPT_PARAMS;
     CV_PARAMS_GRID := 4%positive;
     N_ITER_RANDOM := 200;
     CV_PARAMS_RANDOM := 5%positive;
     N_ITER_BAYES := 100;
     INIT_POINTS := 20;
     ACQ := "ei";
     BAYES_PARAMS := 6%positive;
     INT_PARAMS := [];
     BAYES_NOT_OPT_PARAMS := SVM_BAYES_NOT_OPT_PARAMS;
     _train_param_generation := fun _ src_fit_params => src_fit_params;
     _bayes_evaluate := SVMClassifierTuning_objective |}.

(** The dictionaries the two class bodies create when the module is
    imported, at the locations the families above refer to. *)
Definition svm_tuning_store : store :=
  {[ 1%positive := SVMRegressorTuning_CV_PARAMS_GRID;
     2%positive := SVMRegressorTuning_CV_PARAMS_RANDOM;
     3%positive := SVMRegressorTuning_BAYES_PARAMS;
     4%positive := SVMClassifierTuning_CV_PARAMS_GRID;
     5%positive := SVMClassifierTuning_CV_PARAMS_RANDOM;
     6%positive := SVMClassifierTuning_BAYES_PARAMS ]}.

(** Running a method on an instance. *)
Definition run {A} (m : M A) (self : Tuner) (h : store) : St * result A :=
  m {| st_self := self; st_heap := h; st_trace := []; st_clock := 0%nat |}.

End ParamTuning.

Arguments X {B} _.
Arguments y {B} _.
Arguments X_colnames {B} _.
Arguments y_colname {B} _.
Arguments tuning_params {B} _.
Arguments bayes_not_opt_params {B} _.
Arguments seed {B} _.
Arguments cv {B} _.
Arguments fit_params {B} _.
Arguments best_estimator_ {B} _.
Arguments scoring {B} _.
Arguments int_params {B} _.
Arguments cv_model {B} _.
Arguments set_tuning_params {B} _ _.
Arguments set_bayes_not_opt_params {B} _ _.
Arguments set_seed {B} _ _.
Arguments set_scoring {B} _ _.
Arguments set_fit_params {B} _ _.
Arguments set_cv {B} _ _.
Arguments set_best_estimator_ {B} _ _.
Arguments st_self {B} _.
Arguments st_heap {B} _.
Arguments st_trace {B} _.
Arguments st_clock {B} _.
Arguments EvGridSearchCV {B} _ _ _ _ _ _ _.
Arguments EvRandomizedSearchCV {B} _ _ _ _ _ _ _ _ _.
Arguments EvBayesianOptimization {B} _ _ _ _ _.
Arguments EvSetParams {B} _ _.
Arguments EvFit {B} _ _ _ _.
Arguments EvBarh {B} _ _ _.
Arguments EvPrint {B} _.
Arguments SEED {B} _.
Arguments SEEDS {B} _.
Arguments CV_NUM {B} _.
Arguments CV_MODEL {B} _.
Arguments FIT_PARAMS {B} _.
Arguments SCORING {B} _.
Arguments NOT_OPT_PARAMS {B} _.
Arguments CV_PARAMS_GRID {B} _.
Arguments N_ITER_RANDOM {B} _.
Arguments CV_PARAMS_RANDOM {B} _.
Arguments N_ITER_BAYES {B} _.
Arguments INIT_POINTS {B} _.
Arguments ACQ {B} _.
Arguments BAYES_PARAMS {B} _.
Arguments INT_PARAMS {B} _.
Arguments BAYES_NOT_OPT_PARAMS {B} _.
Arguments _train_param_generation {B} _ _ _.
Arguments _bayes_evaluate {B} _ _ _.
Arguments grid_search_tuning {B} cls _ _ _ _ _ _ _.
Arguments random_search_tuning {B} cls _ _ _ _ _ _ _ _.
Arguments bayes_opt_tuning {B} cls _ _ _ _ _ _ _ _ _ _ _.
Arguments self_seed {B} _.
Arguments run {B A} _ _ _.

(** ** A small back end to run the methods on

    An estimator is its pipeline step names, its parameters and, once
    fitted, its importances.  The searches pick the first candidate of every
    list; the optimiser evaluates the objective at the mid-point of the
    ranges and reports that point. *)

Record toy_estimator := {
  toy_steps : option (list string);
  toy_params : dict;
  toy_importances : option ndarray;
}.

Definition toy_set_params (e : toy_estimator) (params : dict) : result toy_estimator :=
  ok {| toy_steps := toy_steps e; toy_params := update (toy_params e) params;
        toy_importances := toy_importances e |}.

(** A bare estimator gets one importance per column; a pipeline has no
    such attribute. *)
Definition toy_fit (e : toy_estimator) (X y : ndarray) (fit_params : dict)
  : result toy_estimator :=
  width <-? shape_1 X ;;
  ok {| toy_steps := toy_steps e; toy_params := toy_params e;
        toy_importances :=
          match toy_steps e with
          | Some _ => None
          | None => Some {| shape := [width];
                            data := (fun i => inject_Z (Z.of_nat (S i))) <$> seq 0 width |}
          end |}.

Definition first_candidate (v : value) : option value :=
  match v with
  | VList (c :: _) => Some c
  | _ => None
  end.

Definition toy_search (model : toy_estimator) (param_grid : dict)
    (X y : ndarray) (fit_params : dict) : result (search_result toy_estimator) :=
  let best := omap first_candidate param_grid in
  _ <-? (if decide (map_Forall (fun _ v => is_Some (first_candidate v)) param_grid)
         then ok tt
         else raise (LibraryError "a parameter of the grid has no candidate")) ;;
  model <-? toy_set_params model best ;;
  model <-? toy_fit model X y fit_params ;;
  ok {| best_params_ := best; best_score_ := 1 # 2; sr_best_estimator_ := model |}.

Definition number (v : value) : option Q :=
  match v with
  | VInt z => Some (inject_Z z)
  | VFloat q => Some q
  | _ => None
  end.

Definition mid_point (v : value) : option Q :=
  match v with
  | VTuple [lo; hi] =>
      match number lo, number hi with
      | Some a, Some b => Some (Qred ((a + b) / 2))
      | _, _ => None
      end
  | _ => None
  end.

Definition toy_optimizer (f : gmap string Q -> result Q) (pbounds : dict)
  : result bayes_max :=
  let point := omap mid_point pbounds in
  target <-? f point ;;
  ok {| max_params := point; max_target := target |}.

Definition toy : Backend :=
  {| estimator := toy_estimator;
     axes := unit;
     pipeline_steps := toy_steps;
     feature_importances_ := toy_importances;
     set_params := toy_set_params;
     fit := toy_fit;
     GridSearchCV := fun model grid _ _ X y fit_params =>
                       toy_search model grid X y fit_params;
     RandomizedSearchCV := fun model grid _ _ _ _ X y fit_params =>
                             toy_search model grid X y fit_params;
     BayesianOptimization := fun f pbounds _ _ _ _ => toy_optimizer f pbounds;
     cross_val_score := fun _ _ _ _ _ _ => ok [1 # 2; 3 # 4; 1 # 4]%Q;
     clock := fun n => inject_Z (Z.of_nat n) |}.

(** [Pipeline([("scaler", StandardScaler()), ("svr", SVR())])] *)
Definition toy_svr_pipeline : toy_estimator :=
  {| toy_steps := Some ["scaler"; "svr"]; toy_params := ∅; toy_importances := None |}.

Definition toy_tree : toy_estimator :=
  {| toy_steps := None; toy_params := ∅; toy_importances := None |}.

(** A 2 x 3 feature matrix, its target and its column names. *)
Definition toy_X : ndarray :=
  {| shape := [2; 3]%nat; data := [1; 2; 3; 4; 5; 6]%Q |}.
Definition toy_y : ndarray := {| shape := [2]%nat; data := [0; 1]%Q |}.
Definition toy_colnames : list string := ["a"; "b"; "c"].

Definition toy_self : Tuner toy :=
  {| X := toy_X; y := toy_y; X_colnames := toy_colnames; y_colname := None;
     tuning_params := None; bayes_not_opt_params := None; seed := None;
     cv := None; fit_params := None; best_estimator_ := None;
     scoring := Unset; int_params := Unset; cv_model := Unset |}.

(** A boosted-tree family in the style of the SVM ones: three ranged
    parameters, two of them declared integer-valued, one pinned parameter.
    Its class dictionaries sit at locations 7 to 9. *)
Definition tree_objective (self : Tuner toy) (kw : gmap string Q) : result Q :=
  scores <-? cross_val_score toy toy_tree (X self) (y self) (cv self) None
               (fit_params self) ;;
  ok (mean scores).

Definition tree_BAYES_PARAMS : dict :=
  {[ "n_estimators" := VTuple [VInt 2; VFloat (94 # 10)];
     "min_child_weight" := VTuple [VInt 1; VFloat (54 # 10)];
     "max_depth" := VTuple [VInt 2; VFloat (78 # 10)] ]}.

Definition TreeTuning : Family toy :=
  {| SEED := 42;
     SEEDS := [42; 43];
     CV_NUM := 5;
     CV_MODEL := (toy_tree : estimator toy);
     FIT_PARAMS := ∅;
     SCORING := Some "r2";
     NOT_OPT_PARAMS := {[ "booster" := VList [VStr "gbtree"] ]};
     CV_PARAMS_GRID := 7%positive;
     N_ITER_RANDOM := 200;
     CV_PARAMS_RANDOM := 8%positive;
     N_ITER_BAYES := 100;
     INIT_POINTS := 20;
     ACQ := "ei";
     BAYES_PARAMS := 9%positive;
     INT_PARAMS := ["n_estimators"; "max_depth"];
     BAYES_NOT_OPT_PARAMS := {[ "booster" := VStr "gbtree" ]};
     _train_param_generation := ParamTuning_train_param_generation toy;
     _bayes_evaluate := tree_objective |}.

Definition tree_store : store :=
  {[ 7%positive := update {[ "max_depth" := VList [VInt 2; VInt 4] ]}
                          {[ "booster" := VList [VStr "gbtree"] ]};
     8%positive := update {[ "max_depth" := VList [VInt 3; VInt 5; VInt 7] ]}
                          {[ "booster" := VList [VStr "gbtree"] ]};
     9%positive := tree_BAYES_PARAMS ]}.

(** ** Vocabulary of the specification *)

(** An optional argument: the explicit value when the caller passes one,
    the class-level default when it is omitted. *)
Definition chosen {A : Type} (arg : option A) (class_default used : A) : Prop :=
  match arg with
  | Some v => used = v
  | None => used = class_default
  end.

(** The keyword arguments [fit_params]: omitted means none were passed. *)
Definition chosen_keywords (fit_params class_default used : dict) : Prop :=
  (fit_params ≠ ∅ -> used = fit_params) /\ (fit_params = ∅ -> used = class_default).

(** [scoring], whose class-level default may itself be [None]. *)
Definition chosen_scoring (arg class_default used : option string) : Prop :=
  match arg with
  | Some m => used = Some m
  | None => used = class_default
  end.

(** The splitter a resolved [cv] argument and seed stand for. *)
Definition splitter_for (c : cv_arg) (sd : Z) (used : splitter) : Prop :=
  match c with
  | CvIntegral n => used = KFold n true (Some sd)
  | CvSplitter sp => used = sp
  end.

(** A resolved [cv] argument from which a splitter can be had: a splitter
    object, or a fold count of at least two. *)
Definition folds_accepted (c : cv_arg) : Prop :=
  match c with
  | CvIntegral n => 2 <= n
  | CvSplitter _ => True
  end.

(** A fold count below two, which [KFold] refuses. *)
Definition folds_refused (c : cv_arg) : Prop :=
  match c with
  | CvIntegral n => n <= 1
  | CvSplitter _ => False
  end.

(** The outcome of a grid or random search is the answer of its back end:
    the exception the back end raised, or the parameters and the score of
    the answer, whose estimator the tuner then stores. *)
Definition search_outcome {B : Backend}
    (answer : result (search_result (estimator B)))
    (out : St B * result (dict * Q * Q)) : Prop :=
  match answer with
  | inl e => snd out = inl e
  | inr r =>
      (exists elapsed, snd out = inr (best_params_ r, best_score_ r, elapsed))
      /\ best_estimator_ (st_self (fst out)) = Some (sr_best_estimator_ r)
  end.

(** The outcome of a Bayesian search is decided by the answer of the
    optimiser: its exception is the exception of the call; after an answer
    the call either raises or returns the optimiser's best score with a
    mapping, and the tuner then stores the estimator had by setting that
    mapping on [model] and fitting the result on [X], [y] with [fp]. *)
Definition bayes_outcome {B : Backend} (answer : result bayes_max)
    (model : estimator B) (X y : ndarray) (fp : dict)
    (out : St B * result (dict * Q * Q)) : Prop :=
  match answer with
  | inl e => snd out = inl e
  | inr bo =>
      forall best score elapsed,
        snd out = inr (best, score, elapsed) ->
        score = max_target bo
        /\ exists configured fitted,
             set_params B model best = inr configured
             /\ fit B configured X y fp = inr fitted
             /\ best_estimator_ (st_self (fst out)) = Some fitted
  end.

(** The seed is pinned in a grid: [random_state] has the single candidate. *)
Definition seed_pinned (sd : Z) (grid : dict) : Prop :=
  grid !! "random_state" = Some (VList [VInt sd]).

(** The grid or ranges of the first call into a search back end. *)
Definition handed_to_back_end {B : Backend} (trace : list (event B)) : option dict :=
  head (omap (fun e => match e with
                       | EvGridSearchCV _ grid _ _ _ _ _ => Some grid
                       | EvRandomizedSearchCV _ grid _ _ _ _ _ _ _ => Some grid
                       | EvBayesianOptimization pbounds _ _ _ _ => Some pbounds
                       | _ => None
                       end) trace).

(** A search back end answers with one candidate of every list of its grid. *)
Definition picks_from_grid (grid best : dict) : Prop :=
  forall k cands, grid !! k = Some (VList cands) ->
    exists v, best !! k = Some v /\ v ∈ cands.

Definition search_contract (B : Backend) : Prop :=
  (forall model grid sp sc X y fp r,
      GridSearchCV B model grid sp sc X y fp = inr r ->
      picks_from_grid grid (best_params_ r))
  /\ (forall model grid sp sd n sc X y fp r,
      RandomizedSearchCV B model grid sp sd n sc X y fp = inr r ->
      picks_from_grid grid (best_params_ r)).

(** The three search methods, as calls on an instance. *)
Inductive search_call {B : Backend} (cls : Family B) : M B (dict * Q * Q) -> Prop :=
| call_grid_search cv_model cv_params cv seed scoring fit_params :
    search_call cls
      (grid_search_tuning cls cv_model cv_params cv seed scoring fit_params)
| call_random_search cv_model cv_params cv seed scoring n_iter fit_params :
    search_call cls
      (random_search_tuning cls cv_model cv_params cv seed scoring n_iter fit_params)
| call_bayes_opt cv_model bayes_params cv seed scoring n_iter init_points acq
    bayes_not_opt_params fit_params :
    search_call cls
      (bayes_opt_tuning cls cv_model bayes_params cv seed scoring n_iter
         init_points acq bayes_not_opt_params fit_params).

(** A tuner on which no search has completed: fresh from [__init__], or left
    behind by a search that raised. *)
Inductive no_search_completed {B : Backend} : Tuner B -> Prop :=
| fresh_tuner X y X_colnames y_colname t :
    __init__ B X y X_colnames y_colname = ok t ->
    no_search_completed t
| failed_search cls m s s' e :
    no_search_completed (st_self s) ->
    search_call cls m ->
    m s = (s', inl e) ->
    no_search_completed (st_self s').

(** ** Vocabulary of the further properties *)

(** A tuner as the methods of the class leave it: built by [__init__], then
    taken through any sequence of searches, completed or not, and of
    importance readings. *)
Inductive reachable {B : Backend} : Tuner B -> Prop :=
| reach_init X y X_colnames y_colname t :
    __init__ B X y X_colnames y_colname = ok t ->
    reachable t
| reach_search cls m s :
    reachable (st_self s) ->
    search_call cls m ->
    reachable (st_self (fst (m s)))
| reach_importances ax s :
    reachable (st_self s) ->
    reachable (st_self (fst (get_feature_importances B ax s))).

(** The boosted-tree store with one more dictionary, at location 10: ranges
    that list [n_estimators] only. *)
Definition narrow_store : store :=
  <[10%positive := {[ "n_estimators" := VTuple [VInt 2; VFloat (94 # 10)] ]}]>
    tree_store.

(** The optimiser reports a point at which it evaluated the objective, with
    the value the objective returned there. *)
Definition reports_evaluated_point (B : Backend) : Prop :=
  forall f pbounds sd ip ni aq bo,
    BayesianOptimization B f pbounds sd ip ni aq = inr bo ->
    f (max_params bo) = inr (max_target bo).

(** ** Properties *)

Section Properties.

Context (B : Backend).

Implicit Types (cls : Family B) (s : St B) (self : Tuner B).

(** *** The methods, step by step *)

(** Runs the monadic plumbing of a method on an explicit state, leaving the
    calls into the back end. *)
Ltac run_monad :=
  cbv [bind assign setitem call time_time get_self load ret lift ok raise
       copy_deepcopy st_self st_heap st_trace st_clock];
  cbn [X y seed self_seed seed_value set_tuning_params set_bayes_not_opt_params
       set_seed set_scoring set_fit_params set_cv set_best_estimator_].

Lemma grid_search_tuning_unfold cls cv_model cv_params cv seed scoring fit_params s :
  let model := if_None cv_model (CV_MODEL cls) in
  let l := if_None cv_params (CV_PARAMS_GRID cls) in
  let sd := if_None seed (SEED cls) in
  let sc := match scoring with Some m => Some m | None => SCORING cls end in
  let self1 :=
    set_scoring sc (set_seed (Some sd) (set_tuning_params (Some l) (st_self s))) in
  let fp := _train_param_generation cls self1 (if_empty fit_params (FIT_PARAMS cls)) in
  let h := store_setitem l "random_state" (VList [VInt sd]) (st_heap s) in
  grid_search_tuning cls cv_model cv_params cv seed scoring fit_params s =
  match make_cv (if_None cv (CvIntegral (CV_NUM cls))) sd with
  | inl e =>
      ({| st_self := set_fit_params (Some fp) self1; st_heap := h;
          st_trace := st_trace s; st_clock := S (st_clock s) |}, inl e)
  | inr sp =>
      let self2 := set_cv (Some sp) (set_fit_params (Some fp) self1) in
      let ev :=
        EvGridSearchCV model (deref h l) sp sc (X (st_self s)) (y (st_self s)) fp in
      match GridSearchCV B model (deref h l) sp sc (X (st_self s)) (y (st_self s))
              fp with
      | inl e =>
          ({| st_self := self2; st_heap := h; st_trace := st_trace s ++ [ev];
              st_clock := S (st_clock s) |}, inl e)
      | inr r =>
          ({| st_self := set_best_estimator_ (Some (sr_best_estimator_ r)) self2;
              st_heap := h;
              st_trace := (st_trace s ++ [ev]) ++ [EvPrint (best_params_ r)];
              st_clock := S (S (st_clock s)) |},
           inr (best_params_ r, best_score_ r,
                (clock B (S (st_clock s)) - clock B (st_clock s))%Q))
      end
  end.
Proof.
  destruct s as [self h0 tr n]. cbv zeta. unfold grid_search_tuning.
  run_monad.
  destruct (make_cv _ _) as [e|sp]; [reflexivity|].
  destruct (GridSearchCV B _ _ _ _ _ _ _); reflexivity.
Qed.

Lemma random_search_tuning_unfold cls cv_model cv_params cv seed scoring n_iter
    fit_params s :
  let model := if_None cv_model (CV_MODEL cls) in
  let l := if_None cv_params (CV_PARAMS_RANDOM cls) in
  let sd := if_None seed (SEED cls) in
  let sc := match scoring with Some m => Some m | None => SCORING cls end in
  let n := if_None n_iter (N_ITER_RANDOM cls) in
  let self1 :=
    set_scoring sc (set_seed (Some sd) (set_tuning_params (Some l) (st_self s))) in
  let fp := _train_param_generation cls self1 (if_empty fit_params (FIT_PARAMS cls)) in
  let h := store_setitem l "random_state" (VList [VInt sd]) (st_heap s) in
  random_search_tuning cls cv_model cv_params cv seed scoring n_iter fit_params s =
  match make_cv (if_None cv (CvIntegral (CV_NUM cls))) sd with
  | inl e =>
      ({| st_self := set_fit_params (Some fp) self1; st_heap := h;
          st_trace := st_trace s; st_clock := S (st_clock s) |}, inl e)
  | inr sp =>
      let self2 := set_cv (Some sp) (set_fit_params (Some fp) self1) in
      let ev := EvRandomizedSearchCV model (deref h l) sp sd n sc
                  (X (st_self s)) (y (st_self s)) fp in
      match RandomizedSearchCV B model (deref h l) sp sd n sc
              (X (st_self s)) (y (st_self s)) fp with
      | inl e =>
          ({| st_self := self2; st_heap := h; st_trace := st_trace s ++ [ev];
              st_clock := S (st_clock s) |}, inl e)
      | inr r =>
          ({| st_self := set_best_estimator_ (Some (sr_best_estimator_ r)) self2;
              st_heap := h;
              st_trace := (st_trace s ++ [ev]) ++ [EvPrint (best_params_ r)];
              st_clock := S (S (st_clock s)) |},
           inr (best_params_ r, best_score_ r,
                (clock B (S (st_clock s)) - clock B (st_clock s))%Q))
      end
  end.
Proof.
  destruct s as [self h0 tr n]. cbv zeta. unfold random_search_tuning.
  run_monad.
  destruct (make_cv _ _) as [e|sp]; [reflexivity|].
  destruct (RandomizedSearchCV B _ _ _ _ _ _ _ _ _); reflexivity.
Qed.

Lemma bayes_opt_tuning_unfold cls cv_model bayes_params cv seed scoring n_iter
    init_points acq bayes_not_opt_params fit_params s :
  let model := if_None cv_model (CV_MODEL cls) in
  let l := if_None bayes_params (BAYES_PARAMS cls) in
  let sd := if_None seed (SEED cls) in
  let sc := match scoring with Some m => Some m | None => SCORING cls end in
  let ni := if_None n_iter (N_ITER_BAYES cls) in
  let ip := if_None init_points (INIT_POINTS cls) in
  let aq := if_None acq (ACQ cls) in
  let nop := if_None bayes_not_opt_params (BAYES_NOT_OPT_PARAMS cls) in
  let self1 :=
    set_scoring sc
      (set_seed (Some sd)
         (set_bayes_not_opt_params (Some nop)
            (set_tuning_params (Some l) (st_self s)))) in
  let fp := _train_param_generation cls self1 (if_empty fit_params (FIT_PARAMS cls)) in
  let pb := deref (st_heap s) l in
  let tr1 := st_trace s ++ [EvBayesianOptimization pb sd ip ni aq] in
  bayes_opt_tuning cls cv_model bayes_params cv seed scoring n_iter init_points
    acq bayes_not_opt_params fit_params s =
  match make_cv (if_None cv (CvIntegral (CV_NUM cls))) sd with
  | inl e =>
      ({| st_self := set_fit_params (Some fp) self1; st_heap := st_heap s;
          st_trace := st_trace s; st_clock := S (st_clock s) |}, inl e)
  | inr sp =>
      let self2 := set_cv (Some sp) (set_fit_params (Some fp) self1) in
      match BayesianOptimization B (_bayes_evaluate cls self2) pb sd ip ni aq with
      | inl e =>
          ({| st_self := self2; st_heap := st_heap s; st_trace := tr1;
              st_clock := S (st_clock s) |}, inl e)
      | inr bo =>
          match cast_to_int "min_child_weight" (VFloat <$> max_params bo) with
          | inl e =>
              ({| st_self := self2; st_heap := st_heap s; st_trace := tr1;
                  st_clock := S (S (st_clock s)) |}, inl e)
          | inr bp1 =>
              match cast_to_int "max_depth" bp1 with
              | inl e =>
                  ({| st_self := self2; st_heap := st_heap s; st_trace := tr1;
                      st_clock := S (S (st_clock s)) |}, inl e)
              | inr bp2 =>
                  let best :=
                    <["random_state" := VInt sd]>
                      (update bp2 (BAYES_NOT_OPT_PARAMS cls)) in
                  let tr2 := tr1 ++ [EvSetParams model best] in
                  match set_params B model best with
                  | inl e =>
                      ({| st_self := self2; st_heap := st_heap s;
                          st_trace := tr2; st_clock := S (S (st_clock s)) |},
                       inl e)
                  | inr m1 =>
                      let tr3 :=
                        tr2 ++ [EvFit m1 (X (st_self s)) (y (st_self s)) fp] in
                      match fit B m1 (X (st_self s)) (y (st_self s)) fp with
                      | inl e =>
                          ({| st_self := self2; st_heap := st_heap s;
                              st_trace := tr3; st_clock := S (S (st_clock s)) |},
                           inl e)
                      | inr m2 =>
                          ({| st_self := set_best_estimator_ (Some m2) self2;
                              st_heap := st_heap s; st_trace := tr3;
                              st_clock := S (S (st_clock s)) |},
                           inr (best, max_target bo,
                                (clock B (S (st_clock s))
                                 - clock B (st_clock s))%Q))
                      end
                  end
              end
          end
      end
  end.
Proof.
  destruct s as [self h0 tr n]. cbv zeta. unfold bayes_opt_tuning.
  run_monad.
  destruct (make_cv _ _) as [e|sp]; [reflexivity|].
  destruct (BayesianOptimization B _ _ _ _ _ _) as [e|bo]; [reflexivity|].
  destruct (cast_to_int "min_child_weight" _) as [e|bp1]; [reflexivity|].
  destruct (cast_to_int "max_depth" _) as [e|bp2]; [reflexivity|].
  destruct (set_params B _ _) as [e|m1]; [reflexivity|].
  destruct (fit B _ _ _ _) as [e|m2]; reflexivity.
Qed.

(** [get_feature_importances], by the cases of the stored estimator. *)
Lemma get_feature_importances_unfold ax s :
  get_feature_importances B ax s =
  match best_estimator_ (st_self s) with
  | None => (s, ok None)
  | Some est =>
      match feature_importances_ B est with
      | None => (s, raise (AttributeError "feature_importances_"))
      | Some imp =>
          ({| st_self := st_self s; st_heap := st_heap s;
              st_trace :=
                st_trace s ++
                  [EvBarh ax (rev (X_colnames (st_self s))) (rev (data imp))];
              st_clock := st_clock s |}, ok (Some imp))
      end
  end.
Proof.
  destruct s as [self h0 tr n]. unfold get_feature_importances.
  run_monad.
  destruct (best_estimator_ self) as [est|]; [|reflexivity].
  run_monad.
  destruct (feature_importances_ B est); reflexivity.
Qed.

Lemma init_best_estimator X y X_colnames y_colname self :
  __init__ B X y X_colnames y_colname = ok self -> best_estimator_ self = None.
Proof.
  unfold __init__, rbind. destruct (shape_1 X) as [e|w]; [discriminate|].
  destruct (decide (w ≠ length X_colnames)); [discriminate|].
  unfold ok. intros [= <-]. reflexivity.
Qed.

(** A search that raises leaves the stored estimator as it was. *)
Lemma failed_search_best_estimator cls m s s' e :
  search_call cls m -> m s = (s', inl e) ->
  best_estimator_ (st_self s') = best_estimator_ (st_self s).
Proof.
  intros [ | | ].
  - rewrite grid_search_tuning_unfold. cbv zeta.
    destruct (make_cv _ _); [intros [= <- ?]; reflexivity|].
    destruct (GridSearchCV B _ _ _ _ _ _ _); intros [= <- ?]; reflexivity.
  - rewrite random_search_tuning_unfold. cbv zeta.
    destruct (make_cv _ _); [intros [= <- ?]; reflexivity|].
    destruct (RandomizedSearchCV B _ _ _ _ _ _ _ _ _); intros [= <- ?]; reflexivity.
  - rewrite bayes_opt_tuning_unfold. cbv zeta.
    destruct (make_cv _ _); [intros [= <- ?]; reflexivity|].
    destruct (BayesianOptimization B _ _ _ _ _ _); [intros [= <- ?]; reflexivity|].
    destruct (cast_to_int "min_child_weight" _); [intros [= <- ?]; reflexivity|].
    destruct (cast_to_int "max_depth" _); [intros [= <- ?]; reflexivity|].
    destruct (set_params B _ _); [intros [= <- ?]; reflexivity|].
    destruct (fit B _ _ _ _); intros [= <- ?]; reflexivity.
Qed.

Lemma no_search_completed_best_estimator self :
  no_search_completed self -> best_estimator_ self = None.
Proof.
  induction 1 as [X y names yname t Hinit | cls m s s' e _ IH Hcall Hrun].
  - eapply init_best_estimator, Hinit.
  - rewrite (failed_search_best_estimator cls m s s' e Hcall Hrun). exact IH.
Qed.

(** What every call of a search method has done when it ends, whatever
    [KFold] and the back end answer: the assignments up to [self.fit_params]
    and the write into the grid come first; [self.cv] is assigned, and the
    back end called, only once the splitter is there, and the answer of the
    back end at these very arguments is the outcome of the call. *)
Lemma grid_search_tuning_prefix cls cv_model cv_params cv' seed' scoring' fit_params' s :
  let model := if_None cv_model (CV_MODEL cls) in
  let l := if_None cv_params (CV_PARAMS_GRID cls) in
  let sd := if_None seed' (SEED cls) in
  let sc := match scoring' with Some m => Some m | None => SCORING cls end in
  let self1 :=
    set_scoring sc (set_seed (Some sd) (set_tuning_params (Some l) (st_self s))) in
  let fp := _train_param_generation cls self1 (if_empty fit_params' (FIT_PARAMS cls)) in
  let h := store_setitem l "random_state" (VList [VInt sd]) (st_heap s) in
  let out := grid_search_tuning cls cv_model cv_params cv' seed' scoring' fit_params' s in
  tuning_params (st_self (fst out)) = Some l
  /\ seed (st_self (fst out)) = Some sd
  /\ scoring (st_self (fst out)) = Assigned sc
  /\ fit_params (st_self (fst out)) = Some fp
  /\ match make_cv (if_None cv' (CvIntegral (CV_NUM cls))) sd with
     | inl e => cv (st_self (fst out)) = cv (st_self s)
     | inr sp => cv (st_self (fst out)) = Some sp
     end
  /\ st_heap (fst out) = h
  /\ match make_cv (if_None cv' (CvIntegral (CV_NUM cls))) sd with
     | inl e => st_trace (fst out) = st_trace s /\ snd out = inl e
     | inr sp =>
         (exists rest,
             st_trace (fst out) =
             st_trace s ++
               EvGridSearchCV model (deref h l) sp sc (X (st_self s)) (y (st_self s)) fp
               :: rest)
         /\ search_outcome
              (GridSearchCV B model (deref h l) sp sc (X (st_self s)) (y (st_self s)) fp)
              out
     end.
Proof.
  cbv zeta. rewrite grid_search_tuning_unfold. cbv zeta.
  destruct (make_cv _ _) as [e|sp].
  { cbn [fst snd st_self st_heap st_trace]. repeat split; reflexivity. }
  unfold search_outcome.
  destruct (GridSearchCV B _ _ _ _ _ _ _); cbn [fst snd st_self st_heap st_trace];
    repeat (split; [reflexivity|]).
  - split; [exists []; reflexivity|reflexivity].
  - split; [eexists; rewrite <- app_assoc; reflexivity|].
    split; [eexists; reflexivity|reflexivity].
Qed.

Lemma random_search_tuning_prefix cls cv_model cv_params cv' seed' scoring' n_iter
    fit_params' s :
  let model := if_None cv_model (CV_MODEL cls) in
  let l := if_None cv_params (CV_PARAMS_RANDOM cls) in
  let sd := if_None seed' (SEED cls) in
  let sc := match scoring' with Some m => Some m | None => SCORING cls end in
  let n := if_None n_iter (N_ITER_RANDOM cls) in
  let self1 :=
    set_scoring sc (set_seed (Some sd) (set_tuning_params (Some l) (st_self s))) in
  let fp := _train_param_generation cls self1 (if_empty fit_params' (FIT_PARAMS cls)) in
  let h := store_setitem l "random_state" (VList [VInt sd]) (st_heap s) in
  let out :=
    random_search_tuning cls cv_model cv_params cv' seed' scoring' n_iter fit_params' s in
  tuning_params (st_self (fst out)) = Some l
  /\ seed (st_self (fst out)) = Some sd
  /\ scoring (st_self (fst out)) = Assigned sc
  /\ fit_params (st_self (fst out)) = Some fp
  /\ match make_cv (if_None cv' (CvIntegral (CV_NUM cls))) sd with
     | inl e => cv (st_self (fst out)) = cv (st_self s)
     | inr sp => cv (st_self (fst out)) = Some sp
     end
  /\ st_heap (fst out) = h
  /\ match make_cv (if_None cv' (CvIntegral (CV_NUM cls))) sd with
     | inl e => st_trace (fst out) = st_trace s /\ snd out = inl e
     | inr sp =>
         (exists rest,
             st_trace (fst out) =
             st_trace s ++
               EvRandomizedSearchCV model (deref h l) sp sd n sc
                 (X (st_self s)) (y (st_self s)) fp
               :: rest)
         /\ search_outcome
              (RandomizedSearchCV B model (deref h l) sp sd n sc
                 (X (st_self s)) (y (st_self s)) fp)
              out
     end.
Proof.
  cbv zeta. rewrite random_search_tuning_unfold. cbv zeta.
  destruct (make_cv _ _) as [e|sp].
  { cbn [fst snd st_self st_heap st_trace]. repeat split; reflexivity. }
  unfold search_outcome.
  destruct (RandomizedSearchCV B _ _ _ _ _ _ _ _ _);
    cbn [fst snd st_self st_heap st_trace]; repeat (split; [reflexivity|]).
  - split; [exists []; reflexivity|reflexivity].
  - split; [eexists; rewrite <- app_assoc; reflexivity|].
    split; [eexists; reflexivity|reflexivity].
Qed.

Lemma bayes_opt_tuning_prefix cls cv_model bayes_params cv' seed' scoring' n_iter
    init_points acq bayes_not_opt_params' fit_params' s :
  let model := if_None cv_model (CV_MODEL cls) in
  let l := if_None bayes_params (BAYES_PARAMS cls) in
  let sd := if_None seed' (SEED cls) in
  let sc := match scoring' with Some m => Some m | None => SCORING cls end in
  let ni := if_None n_iter (N_ITER_BAYES cls) in
  let ip := if_None init_points (INIT_POINTS cls) in
  let aq := if_None acq (ACQ cls) in
  let nop := if_None bayes_not_opt_params' (BAYES_NOT_OPT_PARAMS cls) in
  let self1 :=
    set_scoring sc
      (set_seed (Some sd)
         (set_bayes_not_opt_params (Some nop)
            (set_tuning_params (Some l) (st_self s)))) in
  let fp := _train_param_generation cls self1 (if_empty fit_params' (FIT_PARAMS cls)) in
  let out :=
    bayes_opt_tuning cls cv_model bayes_params cv' seed' scoring' n_iter init_points
      acq bayes_not_opt_params' fit_params' s in
  tuning_params (st_self (fst out)) = Some l
  /\ bayes_not_opt_params (st_self (fst out)) = Some nop
  /\ seed (st_self (fst out)) = Some sd
  /\ scoring (st_self (fst out)) = Assigned sc
  /\ fit_params (st_self (fst out)) = Some fp
  /\ match make_cv (if_None cv' (CvIntegral (CV_NUM cls))) sd with
     | inl e => cv (st_self (fst out)) = cv (st_self s)
     | inr sp => cv (st_self (fst out)) = Some sp
     end
  /\ st_heap (fst out) = st_heap s
  /\ match make_cv (if_None cv' (CvIntegral (CV_NUM cls))) sd with
     | inl e => st_trace (fst out) = st_trace s /\ snd out = inl e
     | inr sp =>
         (exists rest,
             st_trace (fst out) =
             st_trace s ++
               EvBayesianOptimization (deref (st_heap s) l) sd ip ni aq :: rest)
         /\ bayes_outcome
              (BayesianOptimization B
                 (_bayes_evaluate cls
                    (set_cv (Some sp) (set_fit_params (Some fp) self1)))
                 (deref (st_heap s) l) sd ip ni aq)
              model (X (st_self s)) (y (st_self s)) fp out
     end.
Proof.
  cbv zeta. rewrite bayes_opt_tuning_unfold. cbv zeta.
  destruct (make_cv _ _) as [e|sp].
  { cbn [fst snd st_self st_heap st_trace]. repeat split; reflexivity. }
  unfold bayes_outcome.
  destruct (BayesianOptimization B _ _ _ _ _ _) as [e|bo].
  { cbn [fst snd st_self st_heap st_trace]. repeat (split; [reflexivity|]).
    split; [exists []; reflexivity|reflexivity]. }
  destruct (cast_to_int "min_child_weight" _);
    [|destruct (cast_to_int "max_depth" _);
      [|destruct (set_params B _ _) as [|m1] eqn:Hset;
        [|destruct (fit B _ _ _ _) as [|m2] eqn:Hfit]]];
    cbn [fst snd st_self st_heap st_trace]; repeat (split; [reflexivity|]);
    (split; [rewrite <- ?app_assoc; eexists; reflexivity|]);
    intros best score elapsed; try discriminate.
  intros [= <- <- _]. split; [reflexivity|]. exists m1, m2.
  split; [exact Hset|]. split; [exact Hfit|reflexivity].
Qed.

Lemma if_None_chosen {A : Type} (arg : option A) (class_default : A) :
  chosen arg class_default (if_None arg class_default).
Proof. destruct arg; reflexivity. Qed.

Lemma if_empty_chosen (fit_params class_default : dict) :
  chosen_keywords fit_params class_default (if_empty fit_params class_default).
Proof.
  unfold chosen_keywords, if_empty.
  destruct (decide (fit_params = ∅)); split; intros; congruence.
Qed.

Lemma make_cv_accepted (c : cv_arg) (sd : Z) :
  folds_accepted c -> exists sp, make_cv c sd = inr sp /\ splitter_for c sd sp.
Proof.
  destruct c as [n|object]; cbn [folds_accepted make_cv splitter_for].
  - intros Hn. unfold new_KFold. destruct (decide (n <= 1)); [lia|].
    eexists. split; reflexivity.
  - intros _. eexists. split; reflexivity.
Qed.

Lemma make_cv_refused (c : cv_arg) (sd : Z) :
  folds_refused c -> exists msg, make_cv c sd = inl (ValueError msg).
Proof.
  destruct c as [n|object]; cbn [folds_refused make_cv]; [|contradiction].
  intros Hn. unfold new_KFold. destruct (decide (n <= 1)); [|lia].
  eexists. reflexivity.
Qed.

Lemma make_cv_cases (c : cv_arg) (sd : Z) :
  match make_cv c sd with
  | inl e => folds_refused c /\ exists msg, e = ValueError msg
  | inr sp => folds_accepted c /\ splitter_for c sd sp
  end.
Proof.
  destruct c as [n|object]; cbn [folds_refused folds_accepted make_cv splitter_for].
  - unfold new_KFold. destruct (decide (n <= 1)); cbn.
    + split; [assumption|]. eexists. reflexivity.
    + split; [lia|reflexivity].
  - cbn. split; [exact I|reflexivity].
Qed.

(** The best-parameter mapping of a completed Bayesian search. *)
Lemma bayes_opt_tuning_completed cls cv_model bayes_params cv' seed' scoring' n_iter
    init_points acq bayes_not_opt_params' fit_params' s best score elapsed :
  snd (bayes_opt_tuning cls cv_model bayes_params cv' seed' scoring' n_iter
         init_points acq bayes_not_opt_params' fit_params' s)
  = inr (best, score, elapsed) ->
  exists point bp1 bp2,
    cast_to_int "min_child_weight" (VFloat <$> point) = inr bp1
    /\ cast_to_int "max_depth" bp1 = inr bp2
    /\ best = <["random_state" := VInt (if_None seed' (SEED cls))]>
                (update bp2 (BAYES_NOT_OPT_PARAMS cls)).
Proof.
  rewrite bayes_opt_tuning_unfold. cbv zeta.
  destruct (make_cv _ _); [discriminate|].
  destruct (BayesianOptimization B _ _ _ _ _ _) as [|bo]; [discriminate|].
  destruct (cast_to_int "min_child_weight" _) as [|bp1] eqn:H1; [discriminate|].
  destruct (cast_to_int "max_depth" _) as [|bp2] eqn:H2; [discriminate|].
  destruct (set_params B _ _); [discriminate|].
  destruct (fit B _ _ _ _); [discriminate|].
  cbn [snd]. intros [= <- _ _]. exists (max_params bo), bp1, bp2. auto.
Qed.

Lemma handed_to_back_end_cons (e : event B) (rest : list (event B)) (grid : dict) :
  match e with
  | EvGridSearchCV _ g _ _ _ _ _ => g = grid
  | EvRandomizedSearchCV _ g _ _ _ _ _ _ _ => g = grid
  | EvBayesianOptimization g _ _ _ _ => g = grid
  | _ => False
  end ->
  handed_to_back_end (e :: rest) = Some grid.
Proof. destruct e; intros H; try contradiction; subst; reflexivity. Qed.

Lemma store_setitem_deref l k v (h : store) :
  deref (store_setitem l k v h) l = <[k := v]> (deref h l).
Proof. unfold deref, store_setitem. apply lookup_total_insert_eq. Qed.

Lemma store_setitem_lookup l k v (h : store) :
  store_setitem l k v h !! l = Some (<[k := v]> (deref h l)).
Proof. unfold store_setitem. apply lookup_insert_eq. Qed.

Lemma store_setitem_lookup_ne l l' k v (h : store) :
  l' ≠ l -> store_setitem l k v h !! l' = h !! l'.
Proof. intros Hne. unfold store_setitem. apply lookup_insert_ne. congruence. Qed.

Lemma picks_seed (sd : Z) (grid best : dict) :
  seed_pinned sd grid -> picks_from_grid grid best ->
  best !! "random_state" = Some (VInt sd).
Proof.
  intros Hpin Hpick. destruct (Hpick _ _ Hpin) as (v & Hv & Hin).
  apply list_elem_of_singleton in Hin. congruence.
Qed.

Lemma update_lookup (d other : dict) k :
  update d other !! k =
  match other !! k with
  | Some v => Some v
  | None => d !! k
  end.
Proof.
  unfold update. rewrite lookup_union.
  destruct (other !! k), (d !! k); reflexivity.
Qed.

(** No search method touches the dataset or the attributes the objective
    callbacks read. *)
Lemma search_call_frame cls m s :
  search_call cls m ->
  X (st_self (fst (m s))) = X (st_self s)
  /\ y (st_self (fst (m s))) = y (st_self s)
  /\ X_colnames (st_self (fst (m s))) = X_colnames (st_self s)
  /\ y_colname (st_self (fst (m s))) = y_colname (st_self s)
  /\ int_params (st_self (fst (m s))) = int_params (st_self s)
  /\ cv_model (st_self (fst (m s))) = cv_model (st_self s).
Proof.
  intros [ | | ].
  - rewrite grid_search_tuning_unfold. cbv zeta.
    destruct (make_cv _ _); [repeat split; reflexivity|].
    destruct (GridSearchCV B _ _ _ _ _ _ _); repeat split; reflexivity.
  - rewrite random_search_tuning_unfold. cbv zeta.
    destruct (make_cv _ _); [repeat split; reflexivity|].
    destruct (RandomizedSearchCV B _ _ _ _ _ _ _ _ _); repeat split; reflexivity.
  - rewrite bayes_opt_tuning_unfold. cbv zeta.
    destruct (make_cv _ _); [repeat split; reflexivity|].
    destruct (BayesianOptimization B _ _ _ _ _ _);
      [|destruct (cast_to_int "min_child_weight" _);
        [|destruct (cast_to_int "max_depth" _);
          [|destruct (set_params B _ _); [|destruct (fit B _ _ _ _)]]]];
      repeat split; reflexivity.
Qed.

Lemma get_feature_importances_frame ax s :
  st_self (fst (get_feature_importances B ax s)) = st_self s.
Proof.
  rewrite get_feature_importances_unfold.
  destruct (best_estimator_ (st_self s)) as [est|]; [|reflexivity].
  destruct (feature_importances_ B est); reflexivity.
Qed.

Lemma init_fields X0 y0 names yname self :
  __init__ B X0 y0 names yname = ok self ->
  shape_1 (X self) = ok (length (X_colnames self))
  /\ int_params self = Unset
  /\ cv_model self = Unset.
Proof.
  unfold __init__, rbind. destruct (shape_1 X0) as [e|w] eqn:Hw; [discriminate|].
  destruct (decide (w ≠ length names)) as [|Heq]; [discriminate|].
  apply dec_stable in Heq. unfold ok. intros [= <-]. cbn. subst w.
  repeat split. exact Hw.
Qed.

(** The attributes the callbacks read are assigned by no method. *)
Lemma reachable_attributes_unset self :
  reachable self -> int_params self = Unset /\ cv_model self = Unset.
Proof.
  induction 1 as [X0 y0 names yname t Hinit | cls m s _ IH Hcall | ax s _ IH].
  - destruct (init_fields _ _ _ _ _ Hinit) as (_ & Hi & Hc). auto.
  - destruct (search_call_frame cls m s Hcall) as (_ & _ & _ & _ & Hi & Hc).
    rewrite Hi, Hc. exact IH.
  - rewrite get_feature_importances_frame. exact IH.
Qed.

(** What [get_feature_importances] returns depends on the stored estimator
    only. *)
Lemma importances_of_stored_estimator ax s1 s2 :
  best_estimator_ (st_self s1) = best_estimator_ (st_self s2) ->
  snd (get_feature_importances B ax s1) = snd (get_feature_importances B ax s2).
Proof.
  intros Hbest. rewrite !get_feature_importances_unfold, Hbest.
  destruct (best_estimator_ (st_self s2)) as [est|]; [|reflexivity].
  destruct (feature_importances_ B est); reflexivity.
Qed.

(** *** The properties of the specification *)


(** C2, as amended: [grid_search_tuning] and [random_search_tuning] write the
    resolved seed into the grid as the single candidate of [random_state],
    whatever happens afterwards; when the splitter can be had (a splitter
    object or a fold count of at least two) that grid is the one the search
    back end is called with, and a back end that answers with one candidate
    per list returns a mapping holding the seed.  [bayes_opt_tuning] leaves
    the ranges as they are, calls the optimiser with them and with the seed
    as the optimiser's own [random_state], and writes the seed into the
    best-parameter mapping after the optimisation, so a completed call
    returns a mapping holding the seed.  With a fold count below two no
    back end is called and the call does not return. *)
Theorem C2_seed_in_grid_and_result cls (cv_model : option (estimator B))
    (cv_params bayes_params : option loc) (cv' : option cv_arg) (seed' : option Z)
    (scoring' : option string) (n_iter init_points : option Z)
    (acq : option string) (bayes_not_opt_params' : option dict)
    (fit_params' : dict) s :
  exists sd c,
    chosen seed' (SEED cls) sd
    /\ chosen cv' (CvIntegral (CV_NUM cls)) c
    /\ (let out :=
          grid_search_tuning cls cv_model cv_params cv' seed' scoring'
            fit_params' s in
        exists l,
          chosen cv_params (CV_PARAMS_GRID cls) l
          /\ seed_pinned sd (deref (st_heap (fst out)) l)
          /\ (folds_accepted c ->
              exists new grid,
                st_trace (fst out) = st_trace s ++ new
                /\ handed_to_back_end new = Some grid
                /\ grid = deref (st_heap (fst out)) l
                /\ exists model sp sc fp,
                     search_outcome
                       (GridSearchCV B model grid sp sc (X (st_self s))
                          (y (st_self s)) fp)
                       out)
          /\ (folds_refused c ->
              st_trace (fst out) = st_trace s /\ returned (snd out) = false)
          /\ (search_contract B ->
              forall best score elapsed,
                snd out = inr (best, score, elapsed) ->
                best !! "random_state" = Some (VInt sd)))
    /\ (let out :=
          random_search_tuning cls cv_model cv_params cv' seed' scoring' n_iter
            fit_params' s in
        exists l,
          chosen cv_params (CV_PARAMS_RANDOM cls) l
          /\ seed_pinned sd (deref (st_heap (fst out)) l)
          /\ (folds_accepted c ->
              exists new grid,
                st_trace (fst out) = st_trace s ++ new
                /\ handed_to_back_end new = Some grid
                /\ grid = deref (st_heap (fst out)) l
                /\ exists model sp n sc fp,
                     search_outcome
                       (RandomizedSearchCV B model grid sp sd n sc (X (st_self s))
                          (y (st_self s)) fp)
                       out)
          /\ (folds_refused c ->
              st_trace (fst out) = st_trace s /\ returned (snd out) = false)
          /\ (search_contract B ->
              forall best score elapsed,
                snd out = inr (best, score, elapsed) ->
                best !! "random_state" = Some (VInt sd)))
    /\ (let out :=
          bayes_opt_tuning cls cv_model bayes_params cv' seed' scoring' n_iter
            init_points acq bayes_not_opt_params' fit_params' s in
        exists l,
          chosen bayes_params (BAYES_PARAMS cls) l
          /\ st_heap (fst out) = st_heap s
          /\ (folds_accepted c ->
              exists ip ni aq rest,
                st_trace (fst out) =
                st_trace s ++
                  EvBayesianOptimization (deref (st_heap s) l) sd ip ni aq :: rest
                /\ exists objective model fp,
                     bayes_outcome
                       (BayesianOptimization B objective (deref (st_heap s) l) sd
                          ip ni aq)
                       model (X (st_self s)) (y (st_self s)) fp out)
          /\ (folds_refused c ->
              st_trace (fst out) = st_trace s /\ returned (snd out) = false)
          /\ (forall best score elapsed,
                snd out = inr (best, score, elapsed) ->
                best !! "random_state" = Some (VInt sd))).
Proof.
  exists (if_None seed' (SEED cls)), (if_None cv' (CvIntegral (CV_NUM cls))).
  split; [apply if_None_chosen|]. split; [apply if_None_chosen|].
  split; [|split]; cbv zeta.
  - destruct (grid_search_tuning_prefix cls cv_model cv_params cv' seed' scoring'
                fit_params' s) as (_ & _ & _ & _ & _ & Hh & Hout).
    exists (if_None cv_params (CV_PARAMS_GRID cls)).
    split; [apply if_None_chosen|].
    assert (Hpin : seed_pinned (if_None seed' (SEED cls))
                     (deref (st_heap (fst (grid_search_tuning cls cv_model
                                             cv_params cv' seed' scoring'
                                             fit_params' s)))
                        (if_None cv_params (CV_PARAMS_GRID cls)))).
    { rewrite Hh. unfold seed_pinned. rewrite store_setitem_deref.
      apply lookup_insert_eq. }
    split; [exact Hpin|]. split; [|split].
    + intros Hacc.
      destruct (make_cv_accepted _ (if_None seed' (SEED cls)) Hacc)
        as (sp & Hmk & _).
      rewrite Hmk in Hout. destruct Hout as [[rest Htr] Hres].
      eexists. eexists. split; [exact Htr|].
      split; [apply handed_to_back_end_cons; reflexivity|].
      split; [rewrite Hh; reflexivity|]. do 4 eexists. exact Hres.
    + intros Href.
      destruct (make_cv_refused _ (if_None seed' (SEED cls)) Href) as [msg Hmk].
      rewrite Hmk in Hout. destruct Hout as [Htr Hres].
      split; [exact Htr|]. rewrite Hres. reflexivity.
    + intros [Hgrid _] best score elapsed.
      rewrite grid_search_tuning_unfold. cbv zeta.
      destruct (make_cv _ _); [discriminate|].
      destruct (GridSearchCV B _ _ _ _ _ _ _) as [|r] eqn:Hr; [discriminate|].
      cbn [snd]. intros [= <- _ _].
      eapply picks_seed; [|eapply Hgrid, Hr].
      unfold seed_pinned. rewrite store_setitem_deref. apply lookup_insert_eq.
  - destruct (random_search_tuning_prefix cls cv_model cv_params cv' seed' scoring'
                n_iter fit_params' s) as (_ & _ & _ & _ & _ & Hh & Hout).
    exists (if_None cv_params (CV_PARAMS_RANDOM cls)).
    split; [apply if_None_chosen|].
    assert (Hpin : seed_pinned (if_None seed' (SEED cls))
                     (deref (st_heap (fst (random_search_tuning cls cv_model
                                             cv_params cv' seed' scoring' n_iter
                                             fit_params' s)))
                        (if_None cv_params (CV_PARAMS_RANDOM cls)))).
    { rewrite Hh. unfold seed_pinned. rewrite store_setitem_deref.
      apply lookup_insert_eq. }
    split; [exact Hpin|]. split; [|split].
    + intros Hacc.
      destruct (make_cv_accepted _ (if_None seed' (SEED cls)) Hacc)
        as (sp & Hmk & _).
      rewrite Hmk in Hout. destruct Hout as [[rest Htr] Hres].
      eexists. eexists. split; [exact Htr|].
      split; [apply handed_to_back_end_cons; reflexivity|].
      split; [rewrite Hh; reflexivity|]. do 5 eexists. exact Hres.
    + intros Href.
      destruct (make_cv_refused _ (if_None seed' (SEED cls)) Href) as [msg Hmk].
      rewrite Hmk in Hout. destruct Hout as [Htr Hres].
      split; [exact Htr|]. rewrite Hres. reflexivity.
    + intros [_ Hrand] best score elapsed.
      rewrite random_search_tuning_unfold. cbv zeta.
      destruct (make_cv _ _); [discriminate|].
      destruct (RandomizedSearchCV B _ _ _ _ _ _ _ _ _) as [|r] eqn:Hr;
        [discriminate|].
      cbn [snd]. intros [= <- _ _].
      eapply picks_seed; [|eapply Hrand, Hr].
      unfold seed_pinned. rewrite store_setitem_deref. apply lookup_insert_eq.
  - destruct (bayes_opt_tuning_prefix cls cv_model bayes_params cv' seed' scoring'
                n_iter init_points acq bayes_not_opt_params' fit_params' s)
      as (_ & _ & _ & _ & _ & _ & Hh & Hout).
    exists (if_None bayes_params (BAYES_PARAMS cls)).
    split; [apply if_None_chosen|]. split; [exact Hh|]. split; [|split].
    + intros Hacc.
      destruct (make_cv_accepted _ (if_None seed' (SEED cls)) Hacc)
        as (sp & Hmk & _).
      rewrite Hmk in Hout. destruct Hout as [[rest Htr] Hres].
      do 3 eexists. exists rest. split; [exact Htr|]. do 3 eexists. exact Hres.
    + intros Href.
      destruct (make_cv_refused _ (if_None seed' (SEED cls)) Href) as [msg Hmk].
      rewrite Hmk in Hout. destruct Hout as [Htr Hres].
      split; [exact Htr|]. rewrite Hres. reflexivity.
    + intros best score elapsed Hdone.
      apply bayes_opt_tuning_completed in Hdone as (? & ? & ? & _ & _ & ->).
      apply lookup_insert_eq.
Qed.

(** C3, as amended: in each of the three search methods, when the resolved
    [cv] argument is an integer [n] of at least two the splitter is
    [KFold(n_splits=n, shuffle=True, random_state=seed)] with the resolved
    seed, and when it is a splitter object the splitter is that object.
    The splitter is stored in the tuner and reaches the back end: the grid
    and the random search are called with it, and the optimiser of the
    Bayesian search is called with the objective of a tuner that holds it.
    When [n] is below two, [KFold] raises [ValueError]: the call raises it,
    [self.cv] is left as it was and no back end is called. *)
Theorem C3_splitter_from_cv cls (cv_model : option (estimator B))
    (cv_params bayes_params : option loc) (cv' : option cv_arg) (seed' : option Z)
    (scoring' : option string) (n_iter init_points : option Z)
    (acq : option string) (bayes_not_opt_params' : option dict)
    (fit_params' : dict) s :
  exists sd c,
    chosen seed' (SEED cls) sd
    /\ chosen cv' (CvIntegral (CV_NUM cls)) c
    /\ (let out :=
          grid_search_tuning cls cv_model cv_params cv' seed' scoring'
            fit_params' s in
        (folds_refused c ->
         (exists msg, snd out = inl (ValueError msg))
         /\ cv (st_self (fst out)) = cv (st_self s)
         /\ st_trace (fst out) = st_trace s)
        /\ (folds_accepted c ->
            exists sp,
              match c with
              | CvIntegral n => sp = KFold n true (Some sd)
              | CvSplitter object => sp = object
              end
              /\ cv (st_self (fst out)) = Some sp
              /\ exists model grid sc fp rest,
                   st_trace (fst out) =
                   st_trace s ++
                     EvGridSearchCV model grid sp sc (X (st_self s))
                       (y (st_self s)) fp :: rest
                   /\ search_outcome
                        (GridSearchCV B model grid sp sc (X (st_self s))
                           (y (st_self s)) fp)
                        out))
    /\ (let out :=
          random_search_tuning cls cv_model cv_params cv' seed' scoring' n_iter
            fit_params' s in
        (folds_refused c ->
         (exists msg, snd out = inl (ValueError msg))
         /\ cv (st_self (fst out)) = cv (st_self s)
         /\ st_trace (fst out) = st_trace s)
        /\ (folds_accepted c ->
            exists sp,
              match c with
              | CvIntegral n => sp = KFold n true (Some sd)
              | CvSplitter object => sp = object
              end
              /\ cv (st_self (fst out)) = Some sp
              /\ exists model grid n sc fp rest,
                   st_trace (fst out) =
                   st_trace s ++
                     EvRandomizedSearchCV model grid sp sd n sc (X (st_self s))
                       (y (st_self s)) fp :: rest
                   /\ search_outcome
                        (RandomizedSearchCV B model grid sp sd n sc
                           (X (st_self s)) (y (st_self s)) fp)
                        out))
    /\ (let out :=
          bayes_opt_tuning cls cv_model bayes_params cv' seed' scoring' n_iter
            init_points acq bayes_not_opt_params' fit_params' s in
        (folds_refused c ->
         (exists msg, snd out = inl (ValueError msg))
         /\ cv (st_self (fst out)) = cv (st_self s)
         /\ st_trace (fst out) = st_trace s)
        /\ (folds_accepted c ->
            exists sp,
              match c with
              | CvIntegral n => sp = KFold n true (Some sd)
              | CvSplitter object => sp = object
              end
              /\ cv (st_self (fst out)) = Some sp
              /\ exists bound pbounds ip ni aq model fp rest,
                   cv bound = Some sp
                   /\ X bound = X (st_self s)
                   /\ y bound = y (st_self s)
                   /\ st_trace (fst out) =
                      st_trace s ++
                        EvBayesianOptimization pbounds sd ip ni aq :: rest
                   /\ bayes_outcome
                        (BayesianOptimization B (_bayes_evaluate cls bound)
                           pbounds sd ip ni aq)
                        model (X (st_self s)) (y (st_self s)) fp out)).
Proof.
  exists (if_None seed' (SEED cls)), (if_None cv' (CvIntegral (CV_NUM cls))).
  split; [apply if_None_chosen|]. split; [apply if_None_chosen|].
  split; [|split]; cbv zeta.
  - destruct (grid_search_tuning_prefix cls cv_model cv_params cv' seed' scoring'
                fit_params' s) as (_ & _ & _ & _ & Hc & _ & Hout).
    split.
    + intros Href.
      destruct (make_cv_refused _ (if_None seed' (SEED cls)) Href) as [msg Hmk].
      rewrite Hmk in Hc, Hout. destruct Hout as [Htr Hres]. eauto.
    + intros Hacc.
      destruct (make_cv_accepted _ (if_None seed' (SEED cls)) Hacc)
        as (sp & Hmk & Hsp).
      rewrite Hmk in Hc, Hout. destruct Hout as [[rest Htr] Hres].
      exists sp. split; [exact Hsp|]. split; [exact Hc|].
      do 4 eexists. exists rest. split; [exact Htr|exact Hres].
  - destruct (random_search_tuning_prefix cls cv_model cv_params cv' seed'
                scoring' n_iter fit_params' s)
      as (_ & _ & _ & _ & Hc & _ & Hout).
    split.
    + intros Href.
      destruct (make_cv_refused _ (if_None seed' (SEED cls)) Href) as [msg Hmk].
      rewrite Hmk in Hc, Hout. destruct Hout as [Htr Hres]. eauto.
    + intros Hacc.
      destruct (make_cv_accepted _ (if_None seed' (SEED cls)) Hacc)
        as (sp & Hmk & Hsp).
      rewrite Hmk in Hc, Hout. destruct Hout as [[rest Htr] Hres].
      exists sp. split; [exact Hsp|]. split; [exact Hc|].
      do 5 eexists. exists rest. split; [exact Htr|exact Hres].
  - destruct (bayes_opt_tuning_prefix cls cv_model bayes_params cv' seed' scoring'
                n_iter init_points acq bayes_not_opt_params' fit_params' s)
      as (_ & _ & _ & _ & _ & Hc & _ & Hout).
    split.
    + intros Href.
      destruct (make_cv_refused _ (if_None seed' (SEED cls)) Href) as [msg Hmk].
      rewrite Hmk in Hc, Hout. destruct Hout as [Htr Hres]. eauto.
    + intros Hacc.
      destruct (make_cv_accepted _ (if_None seed' (SEED cls)) Hacc)
        as (sp & Hmk & Hsp).
      rewrite Hmk in Hc, Hout. destruct Hout as [[rest Htr] Hres].
      exists sp. split; [exact Hsp|]. split; [exact Hc|].
      eexists. do 6 eexists. exists rest.
      split; [|split; [|split; [|split; [exact Htr|exact Hres]]]]; reflexivity.
Qed.

(** C10: [grid_search_tuning] and [random_search_tuning] write [random_state]
    into the dictionary they were given, in place: the class-level default
    ([CV_PARAMS_GRID], [CV_PARAMS_RANDOM]) when the caller passes none, so
    that any instance of the family reads the insertion afterwards, and the
    caller's own dictionary otherwise; the tuner keeps that same reference,
    and no other dictionary changes. *)
Theorem C10_grid_mutated_in_place cls (cv_model : option (estimator B))
    (cv_params : option loc) (cv' : option cv_arg) (seed' : option Z)
    (scoring' : option string) (n_iter : option Z) (fit_params' : dict) s :
  exists sd,
    chosen seed' (SEED cls) sd
    /\ (let out :=
          grid_search_tuning cls cv_model cv_params cv' seed' scoring'
            fit_params' s in
        let l := match cv_params with
                 | Some given => given
                 | None => CV_PARAMS_GRID cls
                 end in
        tuning_params (st_self (fst out)) = Some l
        /\ st_heap (fst out) !! l =
           Some (<["random_state" := VList [VInt sd]]> (deref (st_heap s) l))
        /\ (forall l', l' ≠ l -> st_heap (fst out) !! l' = st_heap s !! l')
        /\ (cv_params = None ->
            forall other : Tuner B,
            exists grid,
              snd (run (load B (CV_PARAMS_GRID cls)) other (st_heap (fst out)))
              = ok grid
              /\ seed_pinned sd grid))
    /\ (let out :=
          random_search_tuning cls cv_model cv_params cv' seed' scoring' n_iter
            fit_params' s in
        let l := match cv_params with
                 | Some given => given
                 | None => CV_PARAMS_RANDOM cls
                 end in
        tuning_params (st_self (fst out)) = Some l
        /\ st_heap (fst out) !! l =
           Some (<["random_state" := VList [VInt sd]]> (deref (st_heap s) l))
        /\ (forall l', l' ≠ l -> st_heap (fst out) !! l' = st_heap s !! l')
        /\ (cv_params = None ->
            forall other : Tuner B,
            exists grid,
              snd (run (load B (CV_PARAMS_RANDOM cls)) other (st_heap (fst out)))
              = ok grid
              /\ seed_pinned sd grid)).
Proof.
  exists (if_None seed' (SEED cls)). split; [apply if_None_chosen|].
  split; cbv zeta.
  - destruct (grid_search_tuning_prefix cls cv_model cv_params cv' seed' scoring'
                fit_params' s) as (Ht & _ & _ & _ & _ & Hh & _).
    rewrite Hh, Ht.
    split; [destruct cv_params; reflexivity|].
    split; [destruct cv_params; apply store_setitem_lookup|].
    split; [intros l' Hne; apply store_setitem_lookup_ne; destruct cv_params; exact Hne|].
    intros -> other. eexists. split; [reflexivity|].
    cbn [st_heap if_None]. unfold seed_pinned.
    rewrite store_setitem_deref. apply lookup_insert_eq.
  - destruct (random_search_tuning_prefix cls cv_model cv_params cv' seed' scoring'
                n_iter fit_params' s) as (Ht & _ & _ & _ & _ & Hh & _).
    rewrite Hh, Ht.
    split; [destruct cv_params; reflexivity|].
    split; [destruct cv_params; apply store_setitem_lookup|].
    split; [intros l' Hne; apply store_setitem_lookup_ne; destruct cv_params; exact Hne|].
    intros -> other. eexists. split; [reflexivity|].
    cbn [st_heap if_None]. unfold seed_pinned.
    rewrite store_setitem_deref. apply lookup_insert_eq.
Qed.

(** C4, on the code: the objective callbacks of the SVM families pass
    [self.int_params] to [self._int_conversion] and [self.cv_model] to
    [self._add_learner_name], and no method of [ParamTuning] assigns either
    attribute.  So on every tuner the class builds, whatever searches and
    importance readings it has been through, no evaluation of a callback
    builds a parameter set or returns a mean score: called with its own
    parameters it raises [AttributeError], and as the objective of the
    optimiser it returns for no keywords at all. *)
Theorem C4_objective_never_evaluates self :
  reachable self ->
  (forall gamma C epsilon : Q,
      exists name,
        SVMRegressorTuning_bayes_evaluate B self gamma C epsilon
        = raise (AttributeError name))
  /\ (forall gamma C : Q,
      exists name,
        SVMClassifierTuning_bayes_evaluate B self gamma C
        = raise (AttributeError name))
  /\ (forall kw : gmap string Q,
      returned (SVMRegressorTuning_objective B self kw) = false)
  /\ (forall kw : gmap string Q,
      returned (SVMClassifierTuning_objective B self kw) = false).
Proof.
  intros Hreach. destruct (reachable_attributes_unset self Hreach) as [Hi _].
  assert (Hreg : forall gamma C epsilon : Q,
             SVMRegressorTuning_bayes_evaluate B self gamma C epsilon
             = raise (AttributeError "int_params")).
  { intros. unfold SVMRegressorTuning_bayes_evaluate. rewrite Hi. reflexivity. }
  assert (Hcls : forall gamma C : Q,
             SVMClassifierTuning_bayes_evaluate B self gamma C
             = raise (AttributeError "int_params")).
  { intros. unfold SVMClassifierTuning_bayes_evaluate. rewrite Hi. reflexivity. }
  split; [eauto|]. split; [eauto|]. split.
  - intros kw. unfold SVMRegressorTuning_objective.
    destruct (kw !! "gamma"), (kw !! "C"), (kw !! "epsilon");
      repeat case_decide; rewrite ?Hreg; reflexivity.
  - intros kw. unfold SVMClassifierTuning_objective.
    destruct (kw !! "gamma"), (kw !! "C");
      repeat case_decide; rewrite ?Hcls; reflexivity.
Qed.

(** C7: for a feature matrix [X] (two-dimensional, [cols] columns), target and
    name list, construction succeeds exactly when [cols] is the length of the
    name list; it then stores the inputs unchanged and leaves the
    best-estimator slot at [None]; otherwise it raises the validation error
    and yields no tuner. *)
Theorem C7_construction_checks_width (X y : ndarray) (X_colnames : list string)
    (y_colname : option string) (rows cols : nat) :
  shape X = [rows; cols] ->
  (cols = length X_colnames ->
   __init__ B X y X_colnames y_colname =
   ok {| X := X; y := y; X_colnames := X_colnames; y_colname := y_colname;
         tuning_params := None; bayes_not_opt_params := None; seed := None;
         cv := None; fit_params := None; best_estimator_ := None;
         scoring := Unset; int_params := Unset; cv_model := Unset |})
  /\ (cols ≠ length X_colnames ->
      __init__ B X y X_colnames y_colname =
      raise (Exception "width of X must be equal to length of X_colnames"))
  /\ ((exists self, __init__ B X y X_colnames y_colname = ok self)
      <-> cols = length X_colnames).
Proof.
  intros Hshape.
  assert (Hw : shape_1 X = ok cols) by (unfold shape_1; rewrite Hshape; reflexivity).
  unfold __init__, rbind. rewrite Hw. unfold ok, raise.
  destruct (decide (cols ≠ length X_colnames)) as [Hne|Heq].
  - split; [intros; contradiction|]. split; [reflexivity|].
    split; [intros [self [=]] | intros; contradiction].
  - apply dec_stable in Heq.
    split; [reflexivity|]. split; [intros; contradiction|].
    split; [intros _; exact Heq | intros _; eexists; reflexivity].
Qed.

(** C8, as amended: on a tuner on which no search has completed,
    [get_feature_importances] returns [None] without raising and without
    drawing; on a tuner holding an estimator that has the attribute
    [feature_importances_] it returns the importances as they are (not
    reversed) and draws one bar chart of the reversed names against the
    reversed importances; on a tuner holding an estimator without that
    attribute the [AttributeError] reaches the caller and nothing is drawn. *)
Theorem C8_feature_importances (ax : option (axes B)) s :
  (no_search_completed (st_self s) ->
   get_feature_importances B ax s = (s, ok None))
  /\ (forall est imp,
      best_estimator_ (st_self s) = Some est ->
      feature_importances_ B est = Some imp ->
      get_feature_importances B ax s =
      ({| st_self := st_self s; st_heap := st_heap s;
          st_trace :=
            st_trace s ++
              [EvBarh ax (rev (X_colnames (st_self s))) (rev (data imp))];
          st_clock := st_clock s |}, ok (Some imp)))
  /\ (forall est,
      best_estimator_ (st_self s) = Some est ->
      feature_importances_ B est = None ->
      get_feature_importances B ax s =
      (s, raise (AttributeError "feature_importances_"))).
Proof.
  split; [|split].
  - intros Hfresh. rewrite get_feature_importances_unfold.
    rewrite (no_search_completed_best_estimator _ Hfresh). reflexivity.
  - intros est imp Hest Himp. rewrite get_feature_importances_unfold.
    rewrite Hest, Himp. reflexivity.
  - intros est Hest Himp. rewrite get_feature_importances_unfold.
    rewrite Hest, Himp. reflexivity.
Qed.

(** C9: two consecutive calls of [get_feature_importances] return the same
    value (or raise the same exception), and neither changes a field of the
    tuner or a shared dictionary. *)
Theorem C9_feature_importances_idempotent (ax1 ax2 : option (axes B)) s :
  let first := get_feature_importances B ax1 s in
  let second := get_feature_importances B ax2 (fst first) in
  snd second = snd first
  /\ st_self (fst first) = st_self s
  /\ st_self (fst second) = st_self s
  /\ st_heap (fst first) = st_heap s
  /\ st_heap (fst second) = st_heap s.
Proof.
  cbv zeta. rewrite !get_feature_importances_unfold.
  destruct (best_estimator_ (st_self s)) as [est|] eqn:Hest; cbn [fst snd].
  - destruct (feature_importances_ B est) as [imp|] eqn:Himp;
      cbn [fst snd st_self st_heap]; rewrite ?Hest, ?Himp; cbn [fst snd st_self st_heap];
      repeat split; reflexivity.
  - rewrite Hest. repeat split; reflexivity.
Qed.

(** *** Further properties of the methods *)


(** X2: no method of [ParamTuning] assigns [self.int_params] or
    [self.cv_model]; on every tuner the methods can leave behind, both
    objective callbacks of the SVM families raise [AttributeError] before
    they configure or score anything. *)
Theorem X2_objective_attributes_unassigned self :
  reachable self ->
  int_params self = Unset
  /\ cv_model self = Unset
  /\ forall gamma C epsilon : Q,
      (exists name,
          SVMRegressorTuning_bayes_evaluate B self gamma C epsilon
          = raise (AttributeError name))
      /\ (exists name,
          SVMClassifierTuning_bayes_evaluate B self gamma C
          = raise (AttributeError name)).
Proof.
  intros Hreach.
  assert (Hun : int_params self = Unset /\ cv_model self = Unset).
  { induction Hreach as [X0 y0 names yname t Hinit | cls m s _ IH Hcall | ax s _ IH].
    - destruct (init_fields _ _ _ _ _ Hinit) as (_ & Hi & Hc). auto.
    - destruct (search_call_frame cls m s Hcall) as (_ & _ & _ & _ & Hi & Hc).
      rewrite Hi, Hc. exact IH.
    - rewrite get_feature_importances_frame. exact IH. }
  destruct Hun as [Hi Hc]. split; [exact Hi|]. split; [exact Hc|].
  intros gamma C epsilon. split; eexists.
  - unfold SVMRegressorTuning_bayes_evaluate. rewrite Hi. reflexivity.
  - unfold SVMClassifierTuning_bayes_evaluate. rewrite Hi. reflexivity.
Qed.

(** A keyword mapping with exactly the listed names holds no other name. *)
Lemma only_the_listed_keywords (kw : gmap string Q) (names : list string) k :
  NoDup names ->
  (forall a, a ∈ names -> is_Some (kw !! a)) ->
  size kw = length names ->
  k ∉ names ->
  kw !! k = None.
Proof.
  intros Hnodup Hall Hsize Hk.
  destruct (kw !! k) as [q|] eqn:Hq; [|reflexivity]. exfalso.
  assert (Hsub : (list_to_set (k :: names) : gset string) ⊆ dom kw).
  { intros a Ha. apply elem_of_list_to_set in Ha. apply elem_of_dom.
    apply elem_of_cons in Ha as [->|Ha]; [eauto|auto]. }
  apply subseteq_size in Hsub.
  rewrite size_list_to_set in Hsub by (constructor; assumption).
  rewrite size_dom in Hsub. cbn in Hsub. lia.
Qed.

Lemma regressor_objective_keywords self kw v k :
  SVMRegressorTuning_objective B self kw = inr v ->
  k ∉ ["gamma"; "C"; "epsilon"] ->
  kw !! k = None.
Proof.
  unfold SVMRegressorTuning_objective. intros Hrun Hk.
  destruct (kw !! "gamma") as [g|] eqn:Hg;
    [|destruct (decide (dom kw ⊆ _)); discriminate].
  destruct (kw !! "C") as [c|] eqn:Hc;
    [|destruct (decide (dom kw ⊆ _)); discriminate].
  destruct (kw !! "epsilon") as [e|] eqn:He;
    [|destruct (decide (dom kw ⊆ _)); discriminate].
  destruct (decide (size kw = 3%nat)) as [Hsize|]; [|discriminate].
  apply (only_the_listed_keywords kw ["gamma"; "C"; "epsilon"]); try assumption.
  - apply (bool_decide_unpack _). vm_compute. exact I.
  - intros a Ha. repeat (apply elem_of_cons in Ha as [->|Ha]; [eauto|]).
    apply elem_of_nil in Ha. contradiction.
Qed.

Lemma classifier_objective_keywords self kw v k :
  SVMClassifierTuning_objective B self kw = inr v ->
  k ∉ ["gamma"; "C"] ->
  kw !! k = None.
Proof.
  unfold SVMClassifierTuning_objective. intros Hrun Hk.
  destruct (kw !! "gamma") as [g|] eqn:Hg;
    [|destruct (decide (dom kw ⊆ _)); discriminate].
  destruct (kw !! "C") as [c|] eqn:Hc;
    [|destruct (decide (dom kw ⊆ _)); discriminate].
  destruct (decide (size kw = 2%nat)) as [Hsize|]; [|discriminate].
  apply (only_the_listed_keywords kw ["gamma"; "C"]); try assumption.
  - apply (bool_decide_unpack _). vm_compute. exact I.
  - intros a Ha. repeat (apply elem_of_cons in Ha as [->|Ha]; [eauto|]).
    apply elem_of_nil in Ha. contradiction.
Qed.

Lemma cast_to_int_missing (point : gmap string Q) k :
  point !! k = None ->
  cast_to_int k (VFloat <$> point) = inl (KeyError k).
Proof.
  intros Hk. unfold cast_to_int, getitem. rewrite lookup_fmap, Hk. reflexivity.
Qed.

Lemma cast_to_int_float (d : dict) k q :
  d !! k = Some (VFloat q) ->
  cast_to_int k d = inr (<[k := VInt (int_of_float q)]> d).
Proof. intros Hk. unfold cast_to_int, getitem. rewrite Hk. reflexivity. Qed.

(** X3: on the two SVM families no call of [bayes_opt_tuning] returns,
    whatever the arguments and the ranges: an optimiser that reports a point
    it evaluated reports one with the keywords of the objective, [gamma],
    [C] (and [epsilon]), and the method then looks up [min_child_weight] in
    it.  The stored estimator stays what it was. *)
Theorem X3_svm_bayes_search_never_returns (pipeline : estimator B)
    (cv_model : option (estimator B)) (bayes_params : option loc)
    (cv' : option cv_arg) (seed' : option Z) (scoring' : option string)
    (n_iter init_points : option Z) (acq : option string)
    (bayes_not_opt_params' : option dict) (fit_params' : dict) s :
  reports_evaluated_point B ->
  let regress :=
    bayes_opt_tuning (SVMRegressorTuning B pipeline) cv_model bayes_params cv'
      seed' scoring' n_iter init_points acq bayes_not_opt_params' fit_params' s in
  let classify :=
    bayes_opt_tuning (SVMClassifierTuning B pipeline) cv_model bayes_params cv'
      seed' scoring' n_iter init_points acq bayes_not_opt_params' fit_params' s in
  returned (snd regress) = false
  /\ returned (snd classify) = false
  /\ best_estimator_ (st_self (fst regress)) = best_estimator_ (st_self s)
  /\ best_estimator_ (st_self (fst classify)) = best_estimator_ (st_self s).
Proof.
  intros Hopt. cbv zeta. rewrite !bayes_opt_tuning_unfold. cbv zeta.
  assert (Hreg : forall f pb sd ip ni aq bo self,
             f = SVMRegressorTuning_objective B self ->
             BayesianOptimization B f pb sd ip ni aq = inr bo ->
             cast_to_int "min_child_weight" (VFloat <$> max_params bo)
             = inl (KeyError "min_child_weight")).
  { intros f pb sd ip ni aq bo self -> Hbo. apply Hopt in Hbo.
    apply cast_to_int_missing.
    apply (regressor_objective_keywords _ _ _ _ Hbo).
    apply (bool_decide_unpack _). vm_compute. exact I. }
  assert (Hcls : forall f pb sd ip ni aq bo self,
             f = SVMClassifierTuning_objective B self ->
             BayesianOptimization B f pb sd ip ni aq = inr bo ->
             cast_to_int "min_child_weight" (VFloat <$> max_params bo)
             = inl (KeyError "min_child_weight")).
  { intros f pb sd ip ni aq bo self -> Hbo. apply Hopt in Hbo.
    apply cast_to_int_missing.
    apply (classifier_objective_keywords _ _ _ _ Hbo).
    apply (bool_decide_unpack _). vm_compute. exact I. }
  cbn [_bayes_evaluate SVMRegressorTuning SVMClassifierTuning CV_NUM SEED].
  destruct (make_cv _ _); [repeat split; reflexivity|].
  destruct (BayesianOptimization B (SVMRegressorTuning_objective B _) _ _ _ _ _)
    as [e1|bo1] eqn:H1;
    destruct (BayesianOptimization B (SVMClassifierTuning_objective B _) _ _ _ _ _)
    as [e2|bo2] eqn:H2;
    rewrite ?(Hreg _ _ _ _ _ _ _ _ eq_refl H1), ?(Hcls _ _ _ _ _ _ _ _ eq_refl H2);
    repeat split; reflexivity.
Qed.

(** X4: [bayes_opt_tuning] reads [min_child_weight] and [max_depth] from the
    best point whatever the ranges are.  When the optimiser reports a point
    over the names of the ranges and one of the two names is not ranged, the
    call does not return, and the stored estimator stays what it was.  What
    it raises: the [ValueError] of [KFold] when the fold count is below two,
    before anything is optimised; else the optimiser's own exception; else,
    once the optimisation is done and before any estimator is configured or
    fitted, [KeyError] of [min_child_weight] when that name is not ranged,
    and of [max_depth] when only that one is missing. *)
Theorem X4_bayes_raises_on_missing_key cls (cv_model : option (estimator B))
    (bayes_params : option loc) (cv' : option cv_arg) (seed' : option Z)
    (scoring' : option string) (n_iter init_points : option Z)
    (acq : option string) (bayes_not_opt_params' : option dict)
    (fit_params' : dict) s :
  let pbounds :=
    deref (st_heap s)
      (match bayes_params with Some l => l | None => BAYES_PARAMS cls end) in
  let sd := match seed' with Some given => given | None => SEED cls end in
  let c := match cv' with Some given => given | None => CvIntegral (CV_NUM cls) end in
  let out :=
    bayes_opt_tuning cls cv_model bayes_params cv' seed' scoring' n_iter
      init_points acq bayes_not_opt_params' fit_params' s in
  (forall f rs ip ni aq bo,
      BayesianOptimization B f pbounds rs ip ni aq = inr bo ->
      dom (max_params bo) = dom pbounds) ->
  pbounds !! "min_child_weight" = None \/ pbounds !! "max_depth" = None ->
  returned (snd out) = false
  /\ best_estimator_ (st_self (fst out)) = best_estimator_ (st_self s)
  /\ (forall e, snd out = inl e ->
      (folds_refused c
       /\ (exists msg, e = ValueError msg)
       /\ st_trace (fst out) = st_trace s)
      \/ (folds_accepted c
          /\ exists f ip ni aq,
               st_trace (fst out) =
               st_trace s ++ [EvBayesianOptimization pbounds sd ip ni aq]
               /\ (BayesianOptimization B f pbounds sd ip ni aq = inl e
                   \/ (exists bo,
                         BayesianOptimization B f pbounds sd ip ni aq = inr bo
                         /\ pbounds !! "min_child_weight" = None
                         /\ e = KeyError "min_child_weight")
                   \/ (exists bo,
                         BayesianOptimization B f pbounds sd ip ni aq = inr bo
                         /\ pbounds !! "min_child_weight" <> None
                         /\ e = KeyError "max_depth")))).
Proof.
  cbv zeta. intros Hdom Hmiss.
  rewrite bayes_opt_tuning_unfold. cbv zeta.
  change (if_None bayes_params (BAYES_PARAMS cls))
    with (match bayes_params with Some l => l | None => BAYES_PARAMS cls end).
  change (if_None seed' (SEED cls))
    with (match seed' with Some given => given | None => SEED cls end).
  change (if_None cv' (CvIntegral (CV_NUM cls)))
    with (match cv' with Some given => given | None => CvIntegral (CV_NUM cls) end).
  set (pb := deref (st_heap s) _) in *.
  set (sd := match seed' with Some given => given | None => SEED cls end).
  set (c := match cv' with Some given => given | None => CvIntegral (CV_NUM cls) end).
  pose proof (make_cv_cases c sd) as Hcases.
  destruct (make_cv c sd) as [e0|sp].
  { destruct Hcases as [Href Hmsg].
    split; [reflexivity|]. split; [reflexivity|].
    cbn [fst snd st_trace]. intros e [= <-]. left. auto. }
  destruct Hcases as [Hacc _].
  destruct (BayesianOptimization B _ pb _ _ _ _) as [e0|bo] eqn:Hbo.
  { split; [reflexivity|]. split; [reflexivity|].
    cbn [fst snd st_trace]. intros e [= <-]. right. split; [exact Hacc|].
    do 4 eexists. split; [reflexivity|]. left. exact Hbo. }
  pose proof (Hdom _ _ _ _ _ _ Hbo) as Hkeys.
  assert (Habsent : forall k, pb !! k = None -> max_params bo !! k = None).
  { intros k Hk. apply not_elem_of_dom. rewrite Hkeys. apply not_elem_of_dom, Hk. }
  assert (Hpresent : forall k q, max_params bo !! k = Some q -> pb !! k <> None).
  { intros k q Hq Hk. rewrite (Habsent _ Hk) in Hq. discriminate. }
  destruct (max_params bo !! "min_child_weight") as [q|] eqn:Hq.
  - destruct Hmiss as [Hm|Hm]; [rewrite (Habsent _ Hm) in Hq; discriminate|].
    rewrite (cast_to_int_float _ _ q) by (rewrite lookup_fmap, Hq; reflexivity).
    assert (Hcast : cast_to_int "max_depth"
                      (<["min_child_weight" := VInt (int_of_float q)]>
                         (VFloat <$> max_params bo))
                    = inl (KeyError "max_depth")).
    { unfold cast_to_int, getitem.
      rewrite lookup_insert_ne by discriminate.
      rewrite lookup_fmap, (Habsent _ Hm). reflexivity. }
    rewrite Hcast. split; [reflexivity|]. split; [reflexivity|].
    cbn [fst snd st_trace]. intros e [= <-]. right. split; [exact Hacc|].
    do 4 eexists. split; [reflexivity|]. right. right.
    exists bo. split; [exact Hbo|]. split; [|reflexivity].
    exact (Hpresent _ _ Hq).
  - rewrite (cast_to_int_missing _ _ Hq).
    split; [reflexivity|]. split; [reflexivity|].
    cbn [fst snd st_trace]. intros e [= <-]. right. split; [exact Hacc|].
    do 4 eexists. split; [reflexivity|]. right. left.
    exists bo. split; [exact Hbo|]. split; [|reflexivity].
    apply not_elem_of_dom. rewrite <- Hkeys. apply not_elem_of_dom, Hq.
Qed.

(** [int] of a float is its floor when it is positive and its ceiling when
    it is negative. *)
Lemma int_of_float_truncates (q : Q) :
  ((0 <= q)%Q -> int_of_float q = Qfloor q)
  /\ ((q <= 0)%Q -> int_of_float q = Qceiling q).
Proof.
  destruct q as [n d]. unfold int_of_float, Qceiling, Qfloor, Qle. cbn.
  split; intros Hn.
  - apply Z.quot_div_nonneg; lia.
  - rewrite <- (Z.quot_div_nonneg (- n) (Z.pos d)) by lia.
    rewrite Z.quot_opp_l by lia. lia.
Qed.

(** X5: the mapping a completed [bayes_opt_tuning] returns, key by key.  A
    class-level fixed parameter comes back with its class value;
    [min_child_weight] and [max_depth], unless fixed, come back as the best
    point's value truncated toward zero (4.9 becomes 4); every other ranged
    parameter comes back as the float of the best point, and nothing else
    is in the mapping besides [random_state]. *)
Theorem X5_bayes_result_key_by_key cls (cv_model : option (estimator B))
    (bayes_params : option loc) (cv' : option cv_arg) (seed' : option Z)
    (scoring' : option string) (n_iter init_points : option Z)
    (acq : option string) (bayes_not_opt_params' : option dict)
    (fit_params' : dict) s best score elapsed :
  snd (bayes_opt_tuning cls cv_model bayes_params cv' seed' scoring' n_iter
         init_points acq bayes_not_opt_params' fit_params' s)
  = inr (best, score, elapsed) ->
  exists point : gmap string Q,
    (exists f pbounds sd ip ni aq bo,
        BayesianOptimization B f pbounds sd ip ni aq = inr bo
        /\ point = max_params bo /\ score = max_target bo)
    /\ (forall k v, k <> "random_state" ->
         BAYES_NOT_OPT_PARAMS cls !! k = Some v -> best !! k = Some v)
    /\ (forall k, k = "min_child_weight" \/ k = "max_depth" ->
         BAYES_NOT_OPT_PARAMS cls !! k = None ->
         exists q,
           point !! k = Some q
           /\ best !! k = Some (VInt (int_of_float q))
           /\ ((0 <= q)%Q -> int_of_float q = Qfloor q)
           /\ ((q <= 0)%Q -> int_of_float q = Qceiling q))
    /\ (forall k, k <> "random_state" -> k <> "min_child_weight" ->
         k <> "max_depth" -> BAYES_NOT_OPT_PARAMS cls !! k = None ->
         best !! k = VFloat <$> point !! k).
Proof.
  rewrite bayes_opt_tuning_unfold. cbv zeta.
  destruct (make_cv _ _); [discriminate|].
  destruct (BayesianOptimization B _ _ _ _ _ _) as [|bo] eqn:Hbo; [discriminate|].
  destruct (max_params bo !! "min_child_weight") as [q1|] eqn:Hq1;
    [|rewrite (cast_to_int_missing _ _ Hq1); discriminate].
  rewrite (cast_to_int_float _ _ q1) by (rewrite lookup_fmap, Hq1; reflexivity).
  destruct (max_params bo !! "max_depth") as [q2|] eqn:Hq2.
  2:{ unfold cast_to_int at 1, getitem.
      rewrite lookup_insert_ne by discriminate.
      rewrite lookup_fmap, Hq2. discriminate. }
  rewrite (cast_to_int_float _ _ q2)
    by (rewrite lookup_insert_ne by discriminate; rewrite lookup_fmap, Hq2;
        reflexivity).
  destruct (set_params B _ _); [discriminate|].
  destruct (fit B _ _ _ _); [discriminate|].
  cbn [snd]. intros [= <- <- _]. exists (max_params bo).
  split; [eauto 12|]. split; [|split].
  - intros k v Hrs Hk. rewrite lookup_insert_ne by congruence.
    rewrite update_lookup, Hk. reflexivity.
  - intros k Hk Hfix.
    assert (Hrs : "random_state" <> k) by (destruct Hk as [->| ->]; discriminate).
    rewrite lookup_insert_ne by exact Hrs. rewrite update_lookup, Hfix.
    destruct Hk as [->| ->].
    + exists q1. split; [exact Hq1|].
      rewrite lookup_insert_ne by discriminate. rewrite lookup_insert_eq.
      split; [reflexivity|]. apply int_of_float_truncates.
    + exists q2. split; [exact Hq2|]. rewrite lookup_insert_eq.
      split; [reflexivity|]. apply int_of_float_truncates.
  - intros k Hrs Hm Hd Hfix. rewrite lookup_insert_ne by congruence.
    rewrite update_lookup, Hfix.
    rewrite !lookup_insert_ne by congruence. apply lookup_fmap.
Qed.

(** X6: inside the dictionary a grid or random search is given, only
    [random_state] changes: whatever candidates the caller had listed under
    [random_state] are replaced by the single resolved seed, and every other
    entry is left as it was. *)
Theorem X6_only_random_state_is_rewritten cls (cv_model : option (estimator B))
    (cv_params : option loc) (cv' : option cv_arg) (seed' : option Z)
    (scoring' : option string) (n_iter : option Z) (fit_params' : dict) s :
  let sd := match seed' with Some given => given | None => SEED cls end in
  let grid_ref := match cv_params with
                  | Some given => given
                  | None => CV_PARAMS_GRID cls
                  end in
  let random_ref := match cv_params with
                    | Some given => given
                    | None => CV_PARAMS_RANDOM cls
                    end in
  let after_grid :=
    st_heap (fst (grid_search_tuning cls cv_model cv_params cv' seed' scoring'
                    fit_params' s)) in
  let after_random :=
    st_heap (fst (random_search_tuning cls cv_model cv_params cv' seed' scoring'
                    n_iter fit_params' s)) in
  deref after_grid grid_ref !! "random_state" = Some (VList [VInt sd])
  /\ (forall k, k <> "random_state" ->
      deref after_grid grid_ref !! k = deref (st_heap s) grid_ref !! k)
  /\ deref after_random random_ref !! "random_state" = Some (VList [VInt sd])
  /\ (forall k, k <> "random_state" ->
      deref after_random random_ref !! k = deref (st_heap s) random_ref !! k).
Proof.
  cbv zeta.
  destruct (grid_search_tuning_prefix cls cv_model cv_params cv' seed' scoring'
              fit_params' s) as (_ & _ & _ & _ & _ & Hg & _).
  destruct (random_search_tuning_prefix cls cv_model cv_params cv' seed' scoring'
              n_iter fit_params' s) as (_ & _ & _ & _ & _ & Hr & _).
  rewrite Hg, Hr.
  change (if_None seed' (SEED cls))
    with (match seed' with Some given => given | None => SEED cls end).
  change (if_None cv_params (CV_PARAMS_GRID cls))
    with (match cv_params with Some given => given | None => CV_PARAMS_GRID cls end).
  change (if_None cv_params (CV_PARAMS_RANDOM cls))
    with (match cv_params with Some given => given | None => CV_PARAMS_RANDOM cls end).
  rewrite !store_setitem_deref.
  split; [apply lookup_insert_eq|].
  split; [intros k Hk; apply lookup_insert_ne; congruence|].
  split; [apply lookup_insert_eq|].
  intros k Hk. apply lookup_insert_ne. congruence.
Qed.

Lemma store_setitem_twice l k v w (h : store) :
  store_setitem l k v (store_setitem l k w h) = store_setitem l k v h.
Proof.
  unfold store_setitem at 1. rewrite store_setitem_deref.
  unfold store_setitem. rewrite insert_insert_eq, insert_insert_eq. reflexivity.
Qed.

(** X7: the writes of successive searches into one dictionary do not pile
    up: after two grid searches on the same dictionary, each with its own
    seed and other arguments and whatever their outcomes, the store is the
    one the second search alone would have left. *)
Theorem X7_last_search_decides_the_store cls (cv_params : option loc)
    (model1 model2 : option (estimator B)) (cv1 cv2 : option cv_arg)
    (seed1 seed2 : option Z) (scoring1 scoring2 : option string)
    (fit1 fit2 : dict) s :
  let second :=
    grid_search_tuning cls model2 cv_params cv2 seed2 scoring2 fit2 in
  let after_first :=
    fst (grid_search_tuning cls model1 cv_params cv1 seed1 scoring1 fit1 s) in
  st_heap (fst (second after_first)) = st_heap (fst (second s)).
Proof.
  cbv zeta.
  destruct (grid_search_tuning_prefix cls model2 cv_params cv2 seed2 scoring2 fit2
              (fst (grid_search_tuning cls model1 cv_params cv1 seed1 scoring1
                      fit1 s))) as (_ & _ & _ & _ & _ & H2 & _).
  destruct (grid_search_tuning_prefix cls model2 cv_params cv2 seed2 scoring2 fit2 s)
    as (_ & _ & _ & _ & _ & H2' & _).
  destruct (grid_search_tuning_prefix cls model1 cv_params cv1 seed1 scoring1 fit1 s)
    as (_ & _ & _ & _ & _ & H1 & _).
  rewrite H2, H2', H1. apply store_setitem_twice.
Qed.

(** X8: a search that raises is not rolled back.  The tuner keeps the
    estimator of the last completed search, so the importances it reports
    are still that estimator's, while the grid or ranges, the seed, the
    scoring and the fit parameters (and, for a Bayesian search, the fixed
    parameters) are already the resolved values of the failed call.
    [self.cv] is the splitter of the failed call when one was had, and is
    left as it was when the call failed in [KFold]. *)
Theorem X8_failed_search_is_not_rolled_back cls (cv_model : option (estimator B))
    (cv_params bayes_params : option loc) (cv' : option cv_arg) (seed' : option Z)
    (scoring' : option string) (n_iter init_points : option Z)
    (acq : option string) (bayes_not_opt_params' : option dict)
    (fit_params' : dict) s :
  exists sd sc c fp,
    chosen seed' (SEED cls) sd
    /\ chosen_scoring scoring' (SCORING cls) sc
    /\ chosen cv' (CvIntegral (CV_NUM cls)) c
    /\ chosen_keywords fit_params' (FIT_PARAMS cls) fp
    /\ let not_rolled_back (out : St B * result (dict * Q * Q)) (l : loc)
           (fpg : dict) :=
         forall e, snd out = inl e ->
           best_estimator_ (st_self (fst out)) = best_estimator_ (st_self s)
           /\ (forall ax, snd (get_feature_importances B ax (fst out))
                          = snd (get_feature_importances B ax s))
           /\ tuning_params (st_self (fst out)) = Some l
           /\ seed (st_self (fst out)) = Some sd
           /\ scoring (st_self (fst out)) = Assigned sc
           /\ fit_params (st_self (fst out)) = Some fpg
           /\ (folds_refused c -> cv (st_self (fst out)) = cv (st_self s))
           /\ (folds_accepted c ->
               exists sp,
                 splitter_for c sd sp /\ cv (st_self (fst out)) = Some sp) in
       (exists l,
           chosen cv_params (CV_PARAMS_GRID cls) l
           /\ not_rolled_back
                (grid_search_tuning cls cv_model cv_params cv' seed' scoring'
                   fit_params' s)
                l
                (_train_param_generation cls
                   (set_scoring sc
                      (set_seed (Some sd)
                         (set_tuning_params (Some l) (st_self s)))) fp))
       /\ (exists l,
           chosen cv_params (CV_PARAMS_RANDOM cls) l
           /\ not_rolled_back
                (random_search_tuning cls cv_model cv_params cv' seed' scoring'
                   n_iter fit_params' s)
                l
                (_train_param_generation cls
                   (set_scoring sc
                      (set_seed (Some sd)
                         (set_tuning_params (Some l) (st_self s)))) fp))
       /\ (exists l nop,
           let out :=
             bayes_opt_tuning cls cv_model bayes_params cv' seed' scoring'
               n_iter init_points acq bayes_not_opt_params' fit_params' s in
           chosen bayes_params (BAYES_PARAMS cls) l
           /\ chosen bayes_not_opt_params' (BAYES_NOT_OPT_PARAMS cls) nop
           /\ not_rolled_back out l
                (_train_param_generation cls
                   (set_scoring sc
                      (set_seed (Some sd)
                         (set_bayes_not_opt_params (Some nop)
                            (set_tuning_params (Some l) (st_self s))))) fp)
           /\ (forall e, snd out = inl e ->
               bayes_not_opt_params (st_self (fst out)) = Some nop)).
Proof.
  exists (if_None seed' (SEED cls)),
    (match scoring' with Some m => Some m | None => SCORING cls end),
    (if_None cv' (CvIntegral (CV_NUM cls))),
    (if_empty fit_params' (FIT_PARAMS cls)).
  split; [apply if_None_chosen|]. split; [destruct scoring'; reflexivity|].
  split; [apply if_None_chosen|]. split; [apply if_empty_chosen|].
  cbv zeta.
  assert (Hcv : forall (before after : option splitter),
             match make_cv (if_None cv' (CvIntegral (CV_NUM cls)))
                     (if_None seed' (SEED cls)) with
             | inl _ => after = before
             | inr sp => after = Some sp
             end ->
             (folds_refused (if_None cv' (CvIntegral (CV_NUM cls))) ->
              after = before)
             /\ (folds_accepted (if_None cv' (CvIntegral (CV_NUM cls))) ->
                 exists sp,
                   splitter_for (if_None cv' (CvIntegral (CV_NUM cls)))
                     (if_None seed' (SEED cls)) sp
                   /\ after = Some sp)).
  { intros before after Hc. split.
    - intros Href.
      destruct (make_cv_refused _ (if_None seed' (SEED cls)) Href) as [msg Hmk].
      rewrite Hmk in Hc. exact Hc.
    - intros Hacc.
      destruct (make_cv_accepted _ (if_None seed' (SEED cls)) Hacc)
        as (sp & Hmk & Hsp).
      rewrite Hmk in Hc. eauto. }
  split; [|split].
  - exists (if_None cv_params (CV_PARAMS_GRID cls)).
    split; [apply if_None_chosen|]. intros e Hrun.
    destruct (grid_search_tuning_prefix cls cv_model cv_params cv' seed' scoring'
                fit_params' s) as (Ht & Hs & Hsc & Hf & Hc & _).
    assert (Hbest : best_estimator_
                      (st_self (fst (grid_search_tuning cls cv_model cv_params
                                       cv' seed' scoring' fit_params' s)))
                    = best_estimator_ (st_self s)).
    { apply (failed_search_best_estimator cls
               (grid_search_tuning cls cv_model cv_params cv' seed' scoring'
                  fit_params') s _ e); [apply call_grid_search|].
      rewrite <- Hrun. apply surjective_pairing. }
    split; [exact Hbest|].
    split; [intros ax; apply importances_of_stored_estimator, Hbest|].
    do 4 (split; [assumption|]). exact (Hcv _ _ Hc).
  - exists (if_None cv_params (CV_PARAMS_RANDOM cls)).
    split; [apply if_None_chosen|]. intros e Hrun.
    destruct (random_search_tuning_prefix cls cv_model cv_params cv' seed' scoring'
                n_iter fit_params' s) as (Ht & Hs & Hsc & Hf & Hc & _).
    assert (Hbest : best_estimator_
                      (st_self (fst (random_search_tuning cls cv_model cv_params
                                       cv' seed' scoring' n_iter fit_params' s)))
                    = best_estimator_ (st_self s)).
    { apply (failed_search_best_estimator cls
               (random_search_tuning cls cv_model cv_params cv' seed' scoring'
                  n_iter fit_params') s _ e); [apply call_random_search|].
      rewrite <- Hrun. apply surjective_pairing. }
    split; [exact Hbest|].
    split; [intros ax; apply importances_of_stored_estimator, Hbest|].
    do 4 (split; [assumption|]). exact (Hcv _ _ Hc).
  - exists (if_None bayes_params (BAYES_PARAMS cls)),
      (if_None bayes_not_opt_params' (BAYES_NOT_OPT_PARAMS cls)).
    split; [apply if_None_chosen|]. split; [apply if_None_chosen|].
    destruct (bayes_opt_tuning_prefix cls cv_model bayes_params cv' seed' scoring'
                n_iter init_points acq bayes_not_opt_params' fit_params' s)
      as (Ht & Hn & Hs & Hsc & Hf & Hc & _).
    split; [|intros e _; exact Hn].
    intros e Hrun.
    assert (Hbest : best_estimator_
                      (st_self (fst (bayes_opt_tuning cls cv_model bayes_params
                                       cv' seed' scoring' n_iter init_points acq
                                       bayes_not_opt_params' fit_params' s)))
                    = best_estimator_ (st_self s)).
    { apply (failed_search_best_estimator cls
               (bayes_opt_tuning cls cv_model bayes_params cv' seed' scoring'
                  n_iter init_points acq bayes_not_opt_params' fit_params') s _ e);
        [apply call_bayes_opt|].
      rewrite <- Hrun. apply surjective_pairing. }
    split; [exact Hbest|].
    split; [intros ax; apply importances_of_stored_estimator, Hbest|].
    do 4 (split; [assumption|]). exact (Hcv _ _ Hc).
Qed.

(** X9: the constructor reads the second entry of [X.shape] and nothing
    else of [X].  An array of fewer than two dimensions raises [IndexError]
    before the width is compared; an array of any other shape is accepted
    exactly when that second entry is the number of names. *)
Theorem X9_construction_reads_second_dimension (X0 y0 : ndarray)
    (names : list string) (yname : option string) :
  ((length (shape X0) < 2)%nat ->
   __init__ B X0 y0 names yname = raise (IndexError "tuple index out of range"))
  /\ (forall w, shape X0 !! 1%nat = Some w ->
      ((exists self, __init__ B X0 y0 names yname = ok self)
       <-> w = length names)).
Proof.
  split.
  - intros Hshort. unfold __init__, shape_1.
    rewrite (lookup_ge_None_2 (shape X0) 1) by lia. reflexivity.
  - intros w Hw. unfold __init__, shape_1. rewrite Hw. unfold rbind, ok, raise.
    destruct (decide (w ≠ length names)) as [Hne|Heq].
    + split; [intros [self [=]]|intros; contradiction].
    + apply dec_stable in Heq. split; [intros _; exact Heq|eauto].
Qed.

Lemma zip_rev {A C : Type} (l : list A) (k : list C) :
  length l = length k -> zip (rev l) (rev k) = rev (zip l k).
Proof.
  revert k. induction l as [|a l IH]; intros [|b k] Hlen; try discriminate.
  - reflexivity.
  - cbn in Hlen. injection Hlen as Hlen. cbn [rev zip zip_with].
    rewrite zip_with_app by (rewrite !length_rev; exact Hlen).
    rewrite (IH k Hlen). reflexivity.
Qed.

(** X10: when the stored estimator has one importance per feature name, the
    chart [get_feature_importances] draws keeps every name with its own
    importance: the bars are the (name, importance) pairs in reverse order. *)
Theorem X10_chart_keeps_names_with_importances (ax : option (axes B)) s est imp :
  best_estimator_ (st_self s) = Some est ->
  feature_importances_ B est = Some imp ->
  length (data imp) = length (X_colnames (st_self s)) ->
  exists features importances,
    st_trace (fst (get_feature_importances B ax s))
    = st_trace s ++ [EvBarh ax features importances]
    /\ length features = length importances
    /\ zip features importances = rev (zip (X_colnames (st_self s)) (data imp)).
Proof.
  intros Hest Himp Hlen. rewrite get_feature_importances_unfold, Hest, Himp.
  cbn [fst st_trace]. do 2 eexists. split; [reflexivity|].
  split; [rewrite !length_rev; symmetry; exact Hlen|].
  apply zip_rev. symmetry. exact Hlen.
Qed.

(** X11: what a completed search returns and what it stores belong
    together.  A grid or random search returns the parameters and the score
    of the very back-end answer whose estimator it stores; a Bayesian search
    stores the estimator obtained by setting the returned mapping on a copy
    of the resolved model and fitting it on the whole dataset with the
    stored fit parameters. *)
Theorem X11_result_and_stored_estimator_agree cls (cv_model : option (estimator B))
    (cv_params bayes_params : option loc) (cv' : option cv_arg) (seed' : option Z)
    (scoring' : option string) (n_iter init_points : option Z)
    (acq : option string) (bayes_not_opt_params' : option dict)
    (fit_params' : dict) s :
  (forall best score elapsed,
      snd (grid_search_tuning cls cv_model cv_params cv' seed' scoring'
             fit_params' s) = inr (best, score, elapsed) ->
      exists model grid sp sc fp r,
        GridSearchCV B model grid sp sc (X (st_self s)) (y (st_self s)) fp = inr r
        /\ best = best_params_ r
        /\ score = best_score_ r
        /\ best_estimator_
             (st_self (fst (grid_search_tuning cls cv_model cv_params cv' seed'
                              scoring' fit_params' s)))
           = Some (sr_best_estimator_ r))
  /\ (forall best score elapsed,
      snd (random_search_tuning cls cv_model cv_params cv' seed' scoring' n_iter
             fit_params' s) = inr (best, score, elapsed) ->
      exists model grid sp sd n sc fp r,
        RandomizedSearchCV B model grid sp sd n sc (X (st_self s)) (y (st_self s))
          fp = inr r
        /\ best = best_params_ r
        /\ score = best_score_ r
        /\ best_estimator_
             (st_self (fst (random_search_tuning cls cv_model cv_params cv' seed'
                              scoring' n_iter fit_params' s)))
           = Some (sr_best_estimator_ r))
  /\ (forall best score elapsed,
      snd (bayes_opt_tuning cls cv_model bayes_params cv' seed' scoring' n_iter
             init_points acq bayes_not_opt_params' fit_params' s)
      = inr (best, score, elapsed) ->
      let after :=
        st_self (fst (bayes_opt_tuning cls cv_model bayes_params cv' seed'
                        scoring' n_iter init_points acq bayes_not_opt_params'
                        fit_params' s)) in
      exists configured fitted fp,
        set_params B
          (match cv_model with Some given => given | None => CV_MODEL cls end)
          best = inr configured
        /\ fit_params after = Some fp
        /\ fit B configured (X (st_self s)) (y (st_self s)) fp = inr fitted
        /\ best_estimator_ after = Some fitted).
Proof.
  split; [|split].
  - intros best score elapsed. rewrite grid_search_tuning_unfold. cbv zeta.
    destruct (make_cv _ _); [discriminate|].
    destruct (GridSearchCV B _ _ _ _ _ _ _) as [|r] eqn:Hr; [discriminate|].
    cbn [fst snd st_self]. intros [= <- <- _]. do 5 eexists. exists r.
    split; [exact Hr|]. auto.
  - intros best score elapsed. rewrite random_search_tuning_unfold. cbv zeta.
    destruct (make_cv _ _); [discriminate|].
    destruct (RandomizedSearchCV B _ _ _ _ _ _ _ _ _) as [|r] eqn:Hr;
      [discriminate|].
    cbn [fst snd st_self]. intros [= <- <- _]. do 7 eexists. exists r.
    split; [exact Hr|]. auto.
  - intros best score elapsed. rewrite bayes_opt_tuning_unfold. cbv zeta.
    change (if_None cv_model (CV_MODEL cls))
      with (match cv_model with Some given => given | None => CV_MODEL cls end).
    destruct (make_cv _ _); [discriminate|].
    destruct (BayesianOptimization B _ _ _ _ _ _); [discriminate|].
    destruct (cast_to_int "min_child_weight" _); [discriminate|].
    destruct (cast_to_int "max_depth" _); [discriminate|].
    destruct (set_params B _ _) as [|m1] eqn:Hset; [discriminate|].
    destruct (fit B _ _ _ _) as [|m2] eqn:Hfit; [discriminate|].
    cbn [fst snd st_self]. intros [= <- _ _]. exists m1, m2. eexists.
    split; [exact Hset|]. split; [reflexivity|]. split; [exact Hfit|reflexivity].
Qed.

End Properties.

(** ** The properties on concrete runs *)

Lemma toy_search_picks model grid X y fp r :
  toy_search model grid X y fp = inr r -> picks_from_grid grid (best_params_ r).
Proof.
  unfold toy_search, rbind.
  destruct (decide (map_Forall _ grid)) as [Hall|]; [|discriminate].
  unfold toy_set_params, toy_fit, rbind, ok.
  destruct (shape_1 X); [discriminate|]. intros [= <-]. cbn [best_params_].
  intros k cands Hk. specialize (Hall k _ Hk). cbn in Hall.
  destruct cands as [|c cands']; [destruct Hall as [? [=]]|].
  exists c. split; [|left]. rewrite lookup_omap, Hk. reflexivity.
Qed.

Lemma toy_search_contract : search_contract toy.
Proof.
  split.
  - intros model grid sp sc X y fp r Hr. exact (toy_search_picks _ _ _ _ _ _ Hr).
  - intros model grid sp sd n sc X y fp r Hr.
    exact (toy_search_picks _ _ _ _ _ _ Hr).
Qed.


(** C2, as stated, fails for [bayes_opt_tuning]: on a completed call with
    the class defaults, the ranges handed to the optimiser are the class
    ranges, in which no [random_state] is pinned, and the class dictionary
    holds no [random_state] afterwards either. *)
Lemma C2_bayes_ranges_carry_no_seed :
  let out :=
    run (bayes_opt_tuning TreeTuning None None None None None None None None
           None ∅) toy_self tree_store in
  returned (snd out) = true
  /\ handed_to_back_end (st_trace (fst out)) = Some tree_BAYES_PARAMS
  /\ ~ seed_pinned (SEED TreeTuning) tree_BAYES_PARAMS
  /\ deref (st_heap (fst out)) (BAYES_PARAMS TreeTuning) !! "random_state" = None.
Proof.
  cbv zeta. split; [|split; [|split]].
  - vm_compute. reflexivity.
  - vm_compute. reflexivity.
  - assert (Hnone : tree_BAYES_PARAMS !! "random_state" = None)
      by (vm_compute; reflexivity).
    unfold seed_pinned. rewrite Hnone. discriminate.
  - vm_compute. reflexivity.
Qed.

(** C2, as amended, on the default calls of the boosted-tree family: the
    back end keeps its contract, all three calls complete, and each returns
    the class seed. *)
Lemma C2_witness :
  search_contract toy
  /\ (exists best score elapsed,
        snd (run (grid_search_tuning TreeTuning None None None None None ∅)
               toy_self tree_store) = inr (best, score, elapsed)
        /\ best !! "random_state" = Some (VInt 42))
  /\ (exists best score elapsed,
        snd (run (random_search_tuning TreeTuning None None None None None None ∅)
               toy_self tree_store) = inr (best, score, elapsed)
        /\ best !! "random_state" = Some (VInt 42))
  /\ (exists best score elapsed,
        snd (run (bayes_opt_tuning TreeTuning None None None None None None None
                    None None ∅) toy_self tree_store) = inr (best, score, elapsed)
        /\ best !! "random_state" = Some (VInt 42)).
Proof.
  unfold run.
  destruct (C2_seed_in_grid_and_result toy TreeTuning None None None None None
              None None None None None ∅
              {| st_self := toy_self; st_heap := tree_store; st_trace := [];
                 st_clock := 0 |})
    as (sd & c & Hsd & Hc & (lg & _ & _ & _ & _ & Hgrid)
        & (lr & _ & _ & _ & _ & Hrand) & (lb & _ & _ & _ & _ & Hbayes)).
  cbn in Hsd. subst sd.
  split; [exact toy_search_contract|]. split; [|split].
  - specialize (Hgrid toy_search_contract).
    assert (Hdone : returned (snd (grid_search_tuning TreeTuning None None None
                                    None None ∅
                                    {| st_self := toy_self; st_heap := tree_store;
                                       st_trace := []; st_clock := 0 |})) = true)
      by (vm_compute; reflexivity).
    destruct (snd (grid_search_tuning _ _ _ _ _ _ _ _))
      as [e|[[best score] elapsed]]; [discriminate Hdone|].
    exists best, score, elapsed. split; [reflexivity|].
    exact (Hgrid best score elapsed eq_refl).
  - specialize (Hrand toy_search_contract).
    assert (Hdone : returned (snd (random_search_tuning TreeTuning None None None
                                    None None None ∅
                                    {| st_self := toy_self; st_heap := tree_store;
                                       st_trace := []; st_clock := 0 |})) = true)
      by (vm_compute; reflexivity).
    destruct (snd (random_search_tuning _ _ _ _ _ _ _ _ _))
      as [e|[[best score] elapsed]]; [discriminate Hdone|].
    exists best, score, elapsed. split; [reflexivity|].
    exact (Hrand best score elapsed eq_refl).
  - assert (Hdone : returned (snd (bayes_opt_tuning TreeTuning None None None
                                    None None None None None None ∅
                                    {| st_self := toy_self; st_heap := tree_store;
                                       st_trace := []; st_clock := 0 |})) = true)
      by (vm_compute; reflexivity).
    destruct (snd (bayes_opt_tuning _ _ _ _ _ _ _ _ _ _ _ _))
      as [e|[[best score] elapsed]]; [discriminate Hdone|].
    exists best, score, elapsed. split; [reflexivity|].
    exact (Hbayes best score elapsed eq_refl).
Defined.

(** C3, as stated, fails for a fold count of one: [KFold] refuses it, so no
    splitter of one fold is stored or handed to a back end; the call raises,
    [self.cv] is still [None] and nothing has been called. *)
Lemma C3_single_fold_is_refused :
  let out :=
    run (grid_search_tuning TreeTuning None None (Some (CvIntegral 1)) None None
           ∅) toy_self tree_store in
  returned (snd out) = false
  /\ cv (st_self (fst out)) <> Some (KFold 1 true (Some (SEED TreeTuning)))
  /\ cv (st_self (fst out)) = None
  /\ handed_to_back_end (st_trace (fst out)) = None.
Proof.
  cbv zeta. split; [|split; [|split]].
  - vm_compute. reflexivity.
  - vm_compute. discriminate.
  - vm_compute. reflexivity.
  - vm_compute. reflexivity.
Qed.

(** C3, as amended, on a call with a fold count, on a call with a splitter
    object, and on a call with a single fold. *)
Lemma C3_witness :
  cv (st_self (fst (run (grid_search_tuning TreeTuning None None
                           (Some (CvIntegral 3)) (Some 7) None ∅)
                      toy_self tree_store)))
  = Some (KFold 3 true (Some 7))
  /\ cv (st_self (fst (run (bayes_opt_tuning TreeTuning None None
                              (Some (CvSplitter (OtherSplitter "GroupKFold")))
                              None None None None None None ∅)
                         toy_self tree_store)))
     = Some (OtherSplitter "GroupKFold")
  /\ exists msg,
       snd (run (random_search_tuning TreeTuning None None (Some (CvIntegral 1))
                   None None None ∅) toy_self tree_store)
       = inl (ValueError msg).
Proof.
  split; [|split].
  - destruct (C3_splitter_from_cv toy TreeTuning None None None
                (Some (CvIntegral 3)) (Some 7) None None None None None ∅
                {| st_self := toy_self; st_heap := tree_store; st_trace := [];
                   st_clock := 0 |})
      as (sd & c & Hsd & Hc & [_ Hgrid] & _).
    cbn in Hsd, Hc. subst sd c.
    assert (Hfolds : folds_accepted (CvIntegral 3)) by (cbn; lia).
    destruct (Hgrid Hfolds) as (sp & -> & Hcv & _). exact Hcv.
  - destruct (C3_splitter_from_cv toy TreeTuning None None None
                (Some (CvSplitter (OtherSplitter "GroupKFold"))) None None None
                None None None ∅
                {| st_self := toy_self; st_heap := tree_store; st_trace := [];
                   st_clock := 0 |})
      as (sd & c & Hsd & Hc & _ & _ & [_ Hbayes]).
    cbn in Hsd, Hc. subst sd c.
    destruct (Hbayes I) as (sp & -> & Hcv & _). exact Hcv.
  - destruct (C3_splitter_from_cv toy TreeTuning None None None
                (Some (CvIntegral 1)) None None None None None None ∅
                {| st_self := toy_self; st_heap := tree_store; st_trace := [];
                   st_clock := 0 |})
      as (sd & c & Hsd & Hc & _ & [Hrand _] & _).
    cbn in Hsd, Hc. subst sd c.
    assert (Hfolds : folds_refused (CvIntegral 1)) by (cbn; lia).
    exact (proj1 (Hrand Hfolds)).
Defined.

(** C4 on the tuner [__init__] returns: the regressor's callback raises
    [AttributeError], and as an objective it returns for no keywords. *)
Lemma C4_witness :
  reachable toy_self
  /\ (exists name,
        SVMRegressorTuning_bayes_evaluate toy toy_self (1 # 2) (27 # 10) (1 # 10)
        = raise (AttributeError name))
  /\ returned
       (SVMRegressorTuning_objective toy toy_self
          {[ "gamma" := 1 # 2; "C" := 27 # 10; "epsilon" := 1 # 10 ]})
     = false.
Proof.
  assert (Hreach : reachable toy_self)
    by (apply (reach_init toy_X toy_y toy_colnames None); reflexivity).
  destruct (C4_objective_never_evaluates toy toy_self Hreach)
    as (Hreg & _ & Hobj & _).
  split; [exact Hreach|]. split; [apply Hreg|apply Hobj].
Defined.

(** C5 on the code: the boosted-tree family declares [n_estimators] and
    [max_depth] integer-valued.  On a completed default call the optimiser's
    best point is (5.7, 3.2, 4.9); the returned mapping keeps [n_estimators]
    at the float 5.7, although it is declared, and casts [min_child_weight]
    to 3, although it is not. *)
Lemma C5_casts_are_hardcoded :
  let out :=
    run (bayes_opt_tuning TreeTuning None None None None None None None None
           None ∅) toy_self tree_store in
  INT_PARAMS TreeTuning = ["n_estimators"; "max_depth"]
  /\ returned (snd out) = true
  /\ best_of (snd out) !! "n_estimators" = Some (VFloat (57 # 10))
  /\ is_integer <$> best_of (snd out) !! "n_estimators" = Some false
  /\ best_of (snd out) !! "min_child_weight" = Some (VInt 3)
  /\ best_of (snd out) !! "max_depth" = Some (VInt 4).
Proof.
  cbv zeta. repeat split; vm_compute; reflexivity.
Qed.

(** C6 on the code: the caller passes the fixed parameters
    [{"booster": "dart"}]; the call stores them in the tuner, completes, and
    returns (and refits with) the class-level [booster = "gbtree"]. *)
Lemma C6_fixed_parameters_from_class :
  let given : dict := {[ "booster" := VStr "dart" ]} in
  let out :=
    run (bayes_opt_tuning TreeTuning None None None None None None None None
           (Some given) ∅) toy_self tree_store in
  BAYES_NOT_OPT_PARAMS TreeTuning = {[ "booster" := VStr "gbtree" ]}
  /\ returned (snd out) = true
  /\ bayes_not_opt_params (st_self (fst out)) = Some given
  /\ best_of (snd out) !! "booster" = Some (VStr "gbtree")
  /\ best_of (snd out) !! "random_state" = Some (VInt 42)
  /\ st_trace (fst out) !! 1%nat = Some (EvSetParams (B := toy) toy_tree (best_of (snd out))).
Proof.
  cbv zeta. repeat split; vm_compute; reflexivity.
Qed.

(** C7 on a 2 x 3 matrix: three names are accepted, two are refused. *)
Lemma C7_witness :
  __init__ toy toy_X toy_y toy_colnames None = ok toy_self
  /\ __init__ toy toy_X toy_y ["a"; "b"] None =
     raise (Exception "width of X must be equal to length of X_colnames").
Proof.
  split.
  - apply (C7_construction_checks_width toy toy_X toy_y toy_colnames None 2 3
             eq_refl). reflexivity.
  - apply (C7_construction_checks_width toy toy_X toy_y ["a"; "b"] None 2 3
             eq_refl). discriminate.
Defined.

(** C8, as stated, fails on the regressor family: the grid search completes
    and stores the fitted pipeline, which has no [feature_importances_], and
    [get_feature_importances] raises. *)
Lemma C8_pipeline_without_importances :
  let searched :=
    fst (run (grid_search_tuning (SVMRegressorTuning toy toy_svr_pipeline)
                None None None None None ∅) toy_self svm_tuning_store) in
  best_estimator_ (st_self searched) <> None
  /\ snd (get_feature_importances toy None searched)
     = raise (AttributeError "feature_importances_").
Proof.
  cbv zeta. split.
  - vm_compute. discriminate.
  - vm_compute. reflexivity.
Qed.

(** C8, as amended, on the boosted-tree family after a grid search: the
    importances come back in column order, the chart is drawn reversed. *)
Lemma C8_witness :
  let searched :=
    fst (run (grid_search_tuning TreeTuning None None None None None ∅)
           toy_self tree_store) in
  let imp := {| shape := [3%nat]; data := [1; 2; 3]%Q |} in
  get_feature_importances toy None searched =
  ({| st_self := st_self searched; st_heap := st_heap searched;
      st_trace :=
        st_trace searched ++ [EvBarh None ["c"; "b"; "a"] [3; 2; 1]%Q];
      st_clock := st_clock searched |}, ok (Some imp)).
Proof.
  cbv zeta.
  set (searched := fst (run _ toy_self tree_store)).
  assert (Himp : match best_estimator_ (st_self searched) with
                 | Some est => toy_importances est
                 | None => None
                 end = Some {| shape := [3%nat]; data := [1; 2; 3]%Q |})
    by (vm_compute; reflexivity).
  assert (Hnames : X_colnames (st_self searched) = ["a"; "b"; "c"])
    by (vm_compute; reflexivity).
  destruct (C8_feature_importances toy None searched) as (_ & Hdraw & _).
  destruct (best_estimator_ (st_self searched)) as [est|]; [|discriminate Himp].
  rewrite (Hdraw est _ eq_refl Himp), Hnames. reflexivity.
Defined.

(** C10 on the regressor family: a grid search without a grid leaves
    [random_state] in the class dictionary, where any instance reads it. *)
Lemma C10_witness :
  let cls := SVMRegressorTuning toy toy_svr_pipeline in
  let out :=
    run (grid_search_tuning cls None None None None None ∅) toy_self
      svm_tuning_store in
  deref svm_tuning_store (CV_PARAMS_GRID cls) !! "random_state" = None
  /\ forall other : Tuner toy,
      exists grid,
        snd (run (load toy (CV_PARAMS_GRID cls)) other (st_heap (fst out)))
        = ok grid
        /\ seed_pinned 42 grid.
Proof.
  cbv zeta. split; [vm_compute; reflexivity|].
  destruct (C10_grid_mutated_in_place toy
              (SVMRegressorTuning toy toy_svr_pipeline) None None None None None
              None ∅
              {| st_self := toy_self; st_heap := svm_tuning_store;
                 st_trace := []; st_clock := 0 |})
    as (sd & Hsd & (_ & _ & _ & Hseen) & _).
  cbn in Hsd. subst sd. exact (Hseen eq_refl).
Defined.

(** ** The further properties on concrete runs *)

Lemma toy_reports_evaluated_point : reports_evaluated_point toy.
Proof.
  intros f pbounds sd ip ni aq bo. cbn. unfold toy_optimizer, rbind, ok.
  destruct (f (omap mid_point pbounds)) as [|target] eqn:Hf; [discriminate|].
  intros [= <-]. exact Hf.
Qed.

Lemma toy_searched_reachable :
  reachable
    (st_self (fst (grid_search_tuning TreeTuning None None None None None ∅
                     {| st_self := toy_self; st_heap := tree_store;
                        st_trace := []; st_clock := 0 |}))).
Proof.
  apply (reach_search TreeTuning
           (grid_search_tuning TreeTuning None None None None None ∅)
           {| st_self := toy_self; st_heap := tree_store; st_trace := [];
              st_clock := 0 |}).
  - apply (reach_init toy_X toy_y toy_colnames None). reflexivity.
  - constructor.
Qed.


(** X2 on the same tuner. *)
Lemma X2_witness :
  let searched :=
    fst (run (grid_search_tuning TreeTuning None None None None None ∅)
           toy_self tree_store) in
  int_params (st_self searched) = Unset
  /\ exists name,
      SVMRegressorTuning_bayes_evaluate toy (st_self searched)
        (1 # 2) (27 # 10) (1 # 10)
      = raise (AttributeError name).
Proof.
  cbv zeta. unfold run.
  destruct (X2_objective_attributes_unassigned toy _ toy_searched_reachable)
    as (Hint & _ & Hraise).
  split; [exact Hint|]. exact (proj1 (Hraise (1 # 2) (27 # 10) (1 # 10))).
Defined.

(** X3 on the default Bayesian search of the regressor family. *)
Lemma X3_witness :
  reports_evaluated_point toy
  /\ returned
       (snd (run (bayes_opt_tuning (SVMRegressorTuning toy toy_svr_pipeline)
                    None None None None None None None None None ∅)
               toy_self svm_tuning_store)) = false.
Proof.
  split; [exact toy_reports_evaluated_point|]. unfold run.
  exact (proj1 (X3_svm_bayes_search_never_returns toy toy_svr_pipeline None None
                  None None None None None None None ∅
                  {| st_self := toy_self; st_heap := svm_tuning_store;
                     st_trace := []; st_clock := 0 |}
                  toy_reports_evaluated_point)).
Defined.

(** X4 on a Bayesian search of the boosted-tree family over ranges that
    list [n_estimators] only. *)
Lemma X4_witness :
  let out :=
    run (bayes_opt_tuning TreeTuning None (Some 10%positive) None None None None
           None None None ∅) toy_self narrow_store in
  deref narrow_store 10%positive !! "min_child_weight" = None
  /\ returned (snd out) = false
  /\ best_estimator_ (st_self (fst out)) = None.
Proof.
  cbv zeta.
  assert (Hmiss : deref narrow_store 10%positive !! "min_child_weight" = None)
    by (vm_compute; reflexivity).
  split; [exact Hmiss|]. unfold run.
  assert (Hpoint : forall f rs ip ni aq bo,
             BayesianOptimization toy f (deref narrow_store 10%positive) rs ip ni
               aq = inr bo ->
             dom (max_params bo) = dom (deref narrow_store 10%positive)).
  { intros f rs ip ni aq bo. cbn. unfold toy_optimizer, rbind, ok.
    destruct (f _); [discriminate|]. intros [= <-]. cbn [max_params].
    vm_compute. reflexivity. }
  destruct (X4_bayes_raises_on_missing_key toy TreeTuning None
              (Some 10%positive) None None None None None None None ∅
              {| st_self := toy_self; st_heap := narrow_store;
                 st_trace := []; st_clock := 0 |} Hpoint (or_introl Hmiss))
    as (Hraises & Hkept & _).
  split; [exact Hraises|exact Hkept].
Defined.

(** X5 on the default Bayesian search of the boosted-tree family. *)
Lemma X5_witness :
  exists best score elapsed q,
    snd (run (bayes_opt_tuning TreeTuning None None None None None None None
                None None ∅) toy_self tree_store)
    = inr (best, score, elapsed)
    /\ best !! "max_depth" = Some (VInt (int_of_float q))
    /\ best !! "booster" = Some (VStr "gbtree").
Proof.
  unfold run.
  assert (Hdone : returned (snd (bayes_opt_tuning TreeTuning None None None None
                                  None None None None None ∅
                                  {| st_self := toy_self; st_heap := tree_store;
                                     st_trace := []; st_clock := 0 |})) = true)
    by (vm_compute; reflexivity).
  pose proof (X5_bayes_result_key_by_key toy TreeTuning None None None None None
                None None None None ∅
                {| st_self := toy_self; st_heap := tree_store; st_trace := [];
                   st_clock := 0 |}) as Hshape.
  destruct (snd (bayes_opt_tuning _ _ _ _ _ _ _ _ _ _ _ _))
    as [e|[[best score] elapsed]]; [discriminate Hdone|].
  destruct (Hshape best score elapsed eq_refl) as (point & _ & Hfixed & Hcast & _).
  assert (Hfree : BAYES_NOT_OPT_PARAMS TreeTuning !! "max_depth" = None)
    by (vm_compute; reflexivity).
  assert (Hbooster : BAYES_NOT_OPT_PARAMS TreeTuning !! "booster"
                     = Some (VStr "gbtree"))
    by (vm_compute; reflexivity).
  destruct (Hcast "max_depth" (or_intror eq_refl) Hfree) as (q & _ & Hq & _).
  exists best, score, elapsed, q. split; [reflexivity|]. split; [exact Hq|].
  apply Hfixed; [discriminate|exact Hbooster].
Defined.

(** X8 on a Bayesian search of the regressor family that raises after a
    completed grid search of the boosted-tree family. *)
Lemma X8_witness :
  let searched :=
    fst (run (grid_search_tuning TreeTuning None None None None None ∅)
           toy_self tree_store) in
  let failed :=
    bayes_opt_tuning (SVMRegressorTuning toy toy_svr_pipeline) None None None
      (Some 7) None None None None None ∅ searched in
  returned (snd failed) = false
  /\ best_estimator_ (st_self (fst failed)) = best_estimator_ (st_self searched)
  /\ seed (st_self (fst failed)) = Some 7
  /\ cv (st_self (fst failed)) = Some (KFold 5 true (Some 7)).
Proof.
  cbv zeta.
  set (searched := fst (run _ toy_self tree_store)).
  assert (Hfail : returned
                    (snd (bayes_opt_tuning
                            (SVMRegressorTuning toy toy_svr_pipeline) None None
                            None (Some 7) None None None None None ∅ searched))
                  = false)
    by (vm_compute; reflexivity).
  split; [exact Hfail|].
  destruct (X8_failed_search_is_not_rolled_back toy
              (SVMRegressorTuning toy toy_svr_pipeline) None None None None
              (Some 7) None None None None None ∅ searched)
    as (sd & sc & c & fp & Hsd & _ & Hc & _ & _ & _ & (l & nop & _ & _ & Hkeep & _)).
  cbn in Hsd, Hc. subst sd c.
  destruct (snd (bayes_opt_tuning _ _ _ _ _ _ _ _ _ _ _ searched)) as [e|r];
    [|discriminate Hfail].
  destruct (Hkeep e eq_refl) as (Hbest & _ & _ & Hseed & _ & _ & _ & Hcv).
  assert (Hfolds : folds_accepted (CvIntegral 5)) by (cbn; lia).
  destruct (Hcv Hfolds) as (sp & Hsp & Hstored). cbn in Hsp. subst sp.
  split; [exact Hbest|]. split; [exact Hseed|exact Hstored].
Defined.

(** X9 on a one-dimensional array. *)
Lemma X9_witness :
  __init__ toy {| shape := [6%nat]; data := [1; 2; 3; 4; 5; 6]%Q |} toy_y
    toy_colnames None
  = raise (IndexError "tuple index out of range").
Proof.
  apply (X9_construction_reads_second_dimension toy). cbn. lia.
Defined.

(** X10 on the tuner a grid search of the boosted-tree family leaves. *)
Lemma X10_witness :
  let searched :=
    fst (run (grid_search_tuning TreeTuning None None None None None ∅)
           toy_self tree_store) in
  exists features importances,
    st_trace (fst (get_feature_importances toy None searched))
    = st_trace searched ++ [EvBarh None features importances]
    /\ zip features importances = [("c", 3); ("b", 2); ("a", 1)]%Q.
Proof.
  cbv zeta.
  set (searched := fst (run _ toy_self tree_store)).
  assert (Himp : match best_estimator_ (st_self searched) with
                 | Some est => toy_importances est
                 | None => None
                 end = Some {| shape := [3%nat]; data := [1; 2; 3]%Q |})
    by (vm_compute; reflexivity).
  assert (Hnames : X_colnames (st_self searched) = ["a"; "b"; "c"])
    by (vm_compute; reflexivity).
  pose proof (X10_chart_keeps_names_with_importances toy None searched) as Hchart.
  destruct (best_estimator_ (st_self searched)) as [est|]; [|discriminate Himp].
  assert (Hlen : length (data {| shape := [3%nat]; data := [1; 2; 3]%Q |})
                 = length (X_colnames (st_self searched)))
    by (rewrite Hnames; reflexivity).
  destruct (Hchart est _ eq_refl Himp Hlen)
    as (features & importances & Htrace & _ & Hzip).
  exists features, importances. split; [exact Htrace|].
  rewrite Hzip, Hnames. reflexivity.
Defined.

(** X11 on the default Bayesian search of the boosted-tree family. *)
Lemma X11_witness :
  let out :=
    run (bayes_opt_tuning TreeTuning None None None None None None None None
           None ∅) toy_self tree_store in
  exists configured fitted,
    set_params toy toy_tree (best_of (snd out)) = inr configured
    /\ fit toy configured toy_X toy_y ∅ = inr fitted
    /\ best_estimator_ (st_self (fst out)) = Some fitted.
Proof.
  cbv zeta. unfold run.
  assert (Hdone : returned (snd (bayes_opt_tuning TreeTuning None None None None
                                  None None None None None ∅
                                  {| st_self := toy_self; st_heap := tree_store;
                                     st_trace := []; st_clock := 0 |})) = true)
    by (vm_compute; reflexivity).
  assert (Hfp : fit_params
                  (st_self (fst (bayes_opt_tuning TreeTuning None None None None
                                   None None None None None ∅
                                   {| st_self := toy_self; st_heap := tree_store;
                                      st_trace := []; st_clock := 0 |})))
                = Some ∅)
    by (vm_compute; reflexivity).
  destruct (X11_result_and_stored_estimator_agree toy TreeTuning None None None
              None None None None None None None ∅
              {| st_self := toy_self; st_heap := tree_store; st_trace := [];
                 st_clock := 0 |}) as (_ & _ & Hbayes).
  destruct (snd (bayes_opt_tuning _ _ _ _ _ _ _ _ _ _ _ _))
    as [e|[[best score] elapsed]]; [discriminate Hdone|].
  destruct (Hbayes best score elapsed eq_refl)
    as (configured & fitted & fp & Hset & Hfit_params & Hfit & Hstored).
  rewrite Hfp in Hfit_params. injection Hfit_params as <-.
  exists configured, fitted. cbn [best_of]. auto.
Defined.
